(** * ssh_mcp_server_python: the SSH session manager of [main.py]

    A shallow embedding of [SSHMCPServer] (src/ssh_mcp_server_python/main.py).

    - Python [str] values are lists of Unicode code points, [bytes] are lists
      of [Byte.byte].
    - The server object is a record of its three attributes; its methods are
      computations in a state-and-exception monad.  Attribute updates made
      before an exception is raised stay in place, as in Python.
    - paramiko, the process environment and the local file system are the
      outside world.  Every call into it is appended to a trace, and its
      outcome is read from an [Env], indexed by the number of calls made so
      far, so that the same call may succeed once and raise later.
    - Logging is not modelled. *)

From Stdlib Require Import List ZArith NArith Bool Arith Lia.
From Stdlib.Strings Require Import String Ascii Byte.
From Stdlib Require Import DecimalString.
Import ListNotations.

Set Implicit Arguments.

(* ================================================================= *)
(** ** Python strings *)

Module PyStr.

(** A [str] is a sequence of code points. *)
Definition str := list N.
Definition bytes := list byte.

Definition REPLACEMENT : N := 0xFFFD%N.

Definition is_cont (b : N) : bool := ((0x80 <=? b) && (b <=? 0xBF))%N.

(** Second byte of a three-byte sequence: E0 needs A0..BF, ED needs 80..9F. *)
Definition second_of_3 (b0 b1 : N) : bool :=
  (is_cont b1 &&
   (if b1 <? 0xA0 then negb (b0 =? 0xE0) else negb (b0 =? 0xED)))%N.

(** Second byte of a four-byte sequence: F0 needs 90..BF, F4 needs 80..8F. *)
Definition second_of_4 (b0 b1 : N) : bool :=
  (is_cont b1 &&
   (if b1 <? 0x90 then negb (b0 =? 0xF0) else negb (b0 =? 0xF4)))%N.

(** [bytes.decode('utf-8', errors='replace')] on the byte values: total, an
    ill-formed subsequence yields U+FFFD and decoding resumes at the first
    byte that could not be part of it. *)
Fixpoint decode_N (bs : list N) : str :=
  match bs with
  | [] => []
  | b0 :: r0 =>
    if (b0 <? 0x80)%N then b0 :: decode_N r0
    else if (b0 <? 0xC2)%N then REPLACEMENT :: decode_N r0
    else if (b0 <? 0xE0)%N then
      match r0 with
      | [] => [REPLACEMENT]
      | b1 :: r1 =>
        if is_cont b1
        then ((b0 - 0xC0) * 64 + (b1 - 0x80))%N :: decode_N r1
        else REPLACEMENT :: decode_N r0
      end
    else if (b0 <? 0xF0)%N then
      match r0 with
      | [] => [REPLACEMENT]
      | b1 :: r1 =>
        if second_of_3 b0 b1 then
          match r1 with
          | [] => [REPLACEMENT]
          | b2 :: r2 =>
            if is_cont b2
            then ((b0 - 0xE0) * 4096 + (b1 - 0x80) * 64 + (b2 - 0x80))%N
                   :: decode_N r2
            else REPLACEMENT :: decode_N r1
          end
        else REPLACEMENT :: decode_N r0
      end
    else if (b0 <? 0xF5)%N then
      match r0 with
      | [] => [REPLACEMENT]
      | b1 :: r1 =>
        if second_of_4 b0 b1 then
          match r1 with
          | [] => [REPLACEMENT]
          | b2 :: r2 =>
            if is_cont b2 then
              match r2 with
              | [] => [REPLACEMENT]
              | b3 :: r3 =>
                if is_cont b3
                then ((b0 - 0xF0) * 262144 + (b1 - 0x80) * 4096
                      + (b2 - 0x80) * 64 + (b3 - 0x80))%N :: decode_N r3
                else REPLACEMENT :: decode_N r2
              end
            else REPLACEMENT :: decode_N r1
          end
        else REPLACEMENT :: decode_N r0
      end
    else REPLACEMENT :: decode_N r0
  end.

Definition decode_utf8_replace (bs : bytes) : str :=
  decode_N (map Byte.to_N bs).

(** A literal of the source file (UTF-8 text) as a [str]. *)
Definition lit (s : string) : str :=
  decode_utf8_replace (list_byte_of_string s).

(** [bool(s)] for a string. *)
Definition nonempty (s : str) : bool :=
  match s with [] => false | _ :: _ => true end.

(** The characters [str.strip()] and [str.rstrip()] remove. *)
Definition isspace (c : N) : bool :=
  (((0x09 <=? c) && (c <=? 0x0D)) || ((0x1C <=? c) && (c <=? 0x20))
   || (c =? 0x85) || (c =? 0xA0) || (c =? 0x1680)
   || ((0x2000 <=? c) && (c <=? 0x200A))
   || (c =? 0x2028) || (c =? 0x2029) || (c =? 0x202F) || (c =? 0x205F)
   || (c =? 0x3000))%N.

Fixpoint drop_while (p : N -> bool) (s : str) : str :=
  match s with
  | [] => []
  | c :: r => if p c then drop_while p r else s
  end.

Definition lstrip (s : str) : str := drop_while isspace s.
Definition rstrip_by (p : N -> bool) (s : str) : str :=
  rev (drop_while p (rev s)).
Definition rstrip (s : str) : str := rstrip_by isspace s.
Definition strip (s : str) : str := lstrip (rstrip s).

(** [sep.join(parts)]. *)
Fixpoint join (sep : str) (parts : list str) : str :=
  match parts with
  | [] => []
  | [p] => p
  | p :: rest => p ++ sep ++ join sep rest
  end.

(** [str(n)] / [f"{n}"] for an [int]. *)
Definition str_of_Z (z : Z) : str :=
  lit (NilZero.string_of_int (Z.to_int z)).

Definition SLASH : N := 47%N.

(** [os.path.dirname] (posixpath): everything up to and including the last
    slash, with trailing slashes removed unless it consists of slashes only. *)
Definition dirname (p : str) : str :=
  let head := rev (drop_while (fun c => negb (c =? SLASH)%N) (rev p)) in
  if nonempty head && negb (forallb (fun c => (c =? SLASH)%N) head)
  then rstrip_by (fun c => (c =? SLASH)%N) head
  else head.

End PyStr.
Import PyStr.

(* ================================================================= *)
(** ** Exceptions and results *)

(** The exception classes the code raises or tells apart, and those the
    outside world raises.  All of them derive from [Exception]. *)
Inductive exc_class : Type :=
| PyException            (* Exception *)
| ValueError
| AttributeError
| FileNotFoundError
| FileExistsError
| OSError
| SSHException
| AuthenticationException
| OtherError (name : string).

(** An exception object: its class and [str(e)]. *)
Record exc : Type := Exc { exc_type : exc_class; exc_msg : str }.

Inductive result (A : Type) : Type :=
| Ok (a : A)
| Raise (e : exc).
Arguments Ok {A} a.
Arguments Raise {A} e.

Definition is_FileExistsError (e : exc) : bool :=
  match exc_type e with FileExistsError => true | _ => false end.

(* ================================================================= *)
(** ** Data model *)

(** [@dataclass SSHConfig]. *)
Record SSHConfig : Type := {
  host : str;
  port : Z;
  username : str;
  password : option str;
  private_key : option str;
  private_key_passphrase : option str
}.

(** The entries of [key_types], in the order of the list. *)
Inductive KeyFormat : Type := RSA | Ed25519 | ECDSA | DSS.

Definition key_types : list KeyFormat := [RSA; Ed25519; ECDSA; DSS].

(** The object [key_class.from_private_key(io, password=...)] returns. *)
Inductive PKey : Type :=
| LoadedKey (fmt : KeyFormat) (text : str) (passphrase : option str).

(** The credential keyword passed to [SSHClient.connect]. *)
Inductive Auth : Type :=
| AuthPkey (k : PKey)
| AuthPassword (p : option str).

(** paramiko objects are identified by the index of the call that made
    them. *)
Definition handle := nat.

(** The attributes of [SSHMCPServer] the methods read and write. *)
Record Server : Type := {
  ssh_client : option handle;
  sftp_client : option handle;
  config : option SSHConfig
}.

(** Python truthiness of an [Optional] attribute or argument. *)
Definition truthy_str (o : option str) : bool :=
  match o with Some s => nonempty s | None => false end.

Definition truthy_int (o : option Z) : bool :=
  match o with Some z => negb (z =? 0)%Z | None => false end.

Definition truthy_obj {A} (o : option A) : bool :=
  match o with Some _ => true | None => false end.

(** [a or b] at the three types it is used at in the merge. *)
Definition or_str (a : option str) (b : str) : str :=
  match a with Some s => if nonempty s then s else b | None => b end.

Definition or_int (a : option Z) (b : Z) : Z :=
  match a with Some z => if (z =? 0)%Z then b else z | None => b end.

Definition or_opt (a b : option str) : option str :=
  if truthy_str a then a else b.

(* ================================================================= *)
(** ** The outside world *)

(** Calls that leave the process. *)
Inductive Call : Type :=
| GetEnvConfig
| NewSSHClient (h : handle)
| SetMissingHostKeyPolicy (h : handle)
| FromPrivateKey (fmt : KeyFormat) (text : str) (passphrase : option str)
| ClientConnect (h : handle) (hostname : str) (prt : Z) (user : str)
                (a : Auth) (timeout : Z)
| OpenSftp (h : handle) (s : handle)
| ClientClose (h : handle)
| SftpClose (s : handle)
| ExecCommand (h : handle) (cmd : str)
| StdoutRead (h : handle)
| StderrRead (h : handle)
| RecvExitStatus (h : handle)
| PathExists (p : str)
| SftpMkdir (s : handle) (dir : str)
| SftpPut (s : handle) (local remote : str)
| Makedirs (dir : str)
| SftpGet (s : handle) (remote local : str).

(** A call together with the exception it raised, if any. *)
Record Event : Type := Ev { ev_call : Call; ev_raised : option exc }.

(** What the outside world answers.  The first argument is the number of
    calls made before this one. *)
Record Env : Type := {
  os_getenv : nat -> str -> option str;
  os_path_exists : nat -> str -> bool;
  read_text : nat -> str -> result str;
  py_int : str -> result Z;
  from_private_key : nat -> KeyFormat -> str -> option str -> result unit;
  client_connect : nat -> handle -> str -> Z -> str -> Auth -> result unit;
  open_sftp : nat -> handle -> result unit;
  client_close : nat -> handle -> result unit;
  sftp_close : nat -> handle -> result unit;
  exec_command : nat -> handle -> str -> result unit;
  stdout_read : nat -> handle -> result bytes;
  stderr_read : nat -> handle -> result bytes;
  recv_exit_status : nat -> handle -> result Z;
  sftp_mkdir : nat -> handle -> str -> result unit;
  sftp_put : nat -> handle -> str -> str -> result unit;
  os_makedirs : nat -> str -> result unit;
  sftp_get : nat -> handle -> str -> str -> result unit
}.

(* ================================================================= *)
(** ** The state-and-exception monad *)

(** The server attributes and the calls made so far, newest first. *)
Record State : Type := St { srv : Server; trace : list Event }.

Definition M (A : Type) : Type := State -> result A * State.

Definition ret {A} (a : A) : M A := fun st => (Ok a, st).

Definition raise {A} (e : exc) : M A := fun st => (Raise e, st).

Definition bind {A B} (m : M A) (k : A -> M B) : M B :=
  fun st =>
    match m st with
    | (Ok a, st') => k a st'
    | (Raise e, st') => (Raise e, st')
    end.

(** [try: m  except Exception as e: h e]. *)
Definition try_except {A} (m : M A) (h : exc -> M A) : M A :=
  fun st =>
    match m st with
    | (Ok a, st') => (Ok a, st')
    | (Raise e, st') => h e st'
    end.

Declare Scope monad_scope.
Delimit Scope monad_scope with monad.
Notation "x <- m ;; k" := (bind m (fun x => k))
  (at level 61, m at next level, right associativity) : monad_scope.
Notation "m ;; k" := (bind m (fun _ => k))
  (at level 61, right associativity) : monad_scope.
Open Scope monad_scope.

(** Reading and assigning the attributes of [self]. *)
Definition get_ssh_client : M (option handle) :=
  fun st => (Ok (ssh_client (srv st)), st).

Definition get_sftp_client : M (option handle) :=
  fun st => (Ok (sftp_client (srv st)), st).

Definition set_ssh_client (v : option handle) : M unit :=
  fun st =>
    (Ok tt, St {| ssh_client := v;
                  sftp_client := sftp_client (srv st);
                  config := config (srv st) |} (trace st)).

Definition set_sftp_client (v : option handle) : M unit :=
  fun st =>
    (Ok tt, St {| ssh_client := ssh_client (srv st);
                  sftp_client := v;
                  config := config (srv st) |} (trace st)).

Definition set_config (v : option SSHConfig) : M unit :=
  fun st =>
    (Ok tt, St {| ssh_client := ssh_client (srv st);
                  sftp_client := sftp_client (srv st);
                  config := v |} (trace st)).

(** The number of calls made so far. *)
Definition now : M nat := fun st => (Ok (List.length (trace st)), st).

(** One call into the outside world: its outcome is looked up at the current
    time and the call is appended to the trace. *)
Definition extern {A} (c : Call) (answer : nat -> result A) : M A :=
  fun st =>
    let r := answer (List.length (trace st)) in
    (r, St (srv st)
           (Ev c (match r with Ok _ => None | Raise e => Some e end)
              :: trace st)).

(** [self.x.method(...)] when [self.x] may be [None]. *)
Definition attr_of_none (name : string) : exc :=
  Exc AttributeError
      (lit "'NoneType' object has no attribute '" ++ lit name ++ lit "'").

Definition NL : str := [10%N].

(* ================================================================= *)
(** ** The methods of [SSHMCPServer] *)

Section Methods.

Variable E : Env.

(** [os.getenv(name, default)]. *)
Definition getenv_default (t : nat) (name default : string) : str :=
  match os_getenv E t (lit name) with
  | Some v => v
  | None => lit default
  end.

(** [get_env_ssh_config()]: [int(...)] of the port variable may raise; a key
    file that cannot be read is logged and skipped. *)
Definition get_env_ssh_config : M SSHConfig :=
  extern GetEnvConfig (fun t =>
    match py_int E (getenv_default t "UBUNTU_SSH_PORT" "22") with
    | Raise e => Raise e
    | Ok p =>
      Ok {| host := getenv_default t "UBUNTU_SSH_HOST" "";
            port := p;
            username := getenv_default t "UBUNTU_SSH_USERNAME" "";
            password := os_getenv E t (lit "UBUNTU_SSH_PASSWORD");
            private_key :=
              match os_getenv E t (lit "UBUNTU_SSH_PRIVATE_KEY_PATH") with
              | Some path =>
                if nonempty path && os_path_exists E t path then
                  match read_text E t path with
                  | Ok text => Some text
                  | Raise _ => None
                  end
                else None
              | None => None
              end;
            private_key_passphrase :=
              os_getenv E t (lit "UBUNTU_SSH_PRIVATE_KEY_PASSPHRASE") |}
    end).

(** [self.ssh_client.<name>(...)] and [self.sftp_client.<name>(...)]. *)
Definition with_ssh {A} (name : string) (k : handle -> M A) : M A :=
  c <- get_ssh_client ;;
  match c with
  | Some h => k h
  | None => raise (attr_of_none name)
  end.

Definition with_sftp {A} (name : string) (k : handle -> M A) : M A :=
  c <- get_sftp_client ;;
  match c with
  | Some s => k s
  | None => raise (attr_of_none name)
  end.

(** [_disconnect_ssh], lines 361-385. *)
Definition disconnect_body : M str :=
  sftp <- get_sftp_client ;;
  (if truthy_obj sftp then
     with_sftp "close" (fun s => extern (SftpClose s) (fun t => sftp_close E t s)) ;;
     set_sftp_client None
   else ret tt) ;;
  ssh <- get_ssh_client ;;
  (if truthy_obj ssh then
     with_ssh "close" (fun h => extern (ClientClose h) (fun t => client_close E t h)) ;;
     set_ssh_client None
   else ret tt) ;;
  set_config None ;;
  ret (lit "Successfully disconnected from SSH").

Definition _disconnect_ssh : M str :=
  try_except disconnect_body
    (fun e => raise (Exc PyException (lit "Disconnect failed: " ++ exc_msg e))).

(** The merge of the arguments with the environment, lines 164-171. *)
Definition merge_config (host_ : option str) (port_ : option Z)
    (username_ password_ private_key_ passphrase_ : option str)
    (env_config : SSHConfig) : SSHConfig :=
  {| host := or_str host_ (host env_config);
     port := or_int port_ (port env_config);
     username := or_str username_ (username env_config);
     password := or_opt password_ (password env_config);
     private_key := or_opt private_key_ (private_key env_config);
     private_key_passphrase :=
       or_opt passphrase_ (private_key_passphrase env_config) |}.

Definition HOST_REQUIRED : exc :=
  Exc ValueError (lit "Host is required. Provide it as parameter or set UBUNTU_SSH_HOST environment variable.").
Definition USERNAME_REQUIRED : exc :=
  Exc ValueError (lit "Username is required. Provide it as parameter or set UBUNTU_SSH_USERNAME environment variable.").
Definition CREDENTIAL_REQUIRED : exc :=
  Exc ValueError (lit "Either password or private key is required. Set UBUNTU_SSH_PASSWORD or UBUNTU_SSH_PRIVATE_KEY_PATH environment variable.").
Definition KEY_LOAD_FAILED : exc :=
  Exc ValueError (lit "Failed to load private key. Unsupported format or incorrect passphrase.").

(** The required-field checks, lines 174-179. *)
Definition validate_config (c : SSHConfig) : M unit :=
  if negb (nonempty (host c)) then raise HOST_REQUIRED
  else if negb (nonempty (username c)) then raise USERNAME_REQUIRED
  else if negb (truthy_str (password c)) && negb (truthy_str (private_key c))
  then raise CREDENTIAL_REQUIRED
  else ret tt.

(** The [for key_type, key_class in key_types] loop, lines 203-214: the
    first class whose [from_private_key] does not raise gives the key. *)
Fixpoint load_private_key (kts : list KeyFormat) (text : str)
    (passphrase : option str) : M (option PKey) :=
  match kts with
  | [] => ret None
  | fmt :: rest =>
    try_except
      (extern (FromPrivateKey fmt text passphrase)
              (fun t => from_private_key E t fmt text passphrase) ;;
       ret (Some (LoadedKey fmt text passphrase)))
      (fun _ => load_private_key rest text passphrase)
  end.

(** [self.ssh_client.connect(..., timeout=30)]. *)
Definition do_connect (c : SSHConfig) (a : Auth) : M unit :=
  with_ssh "connect" (fun h =>
    extern (ClientConnect h (host c) (port c) (username c) a 30)
           (fun t => client_connect E t h (host c) (port c) (username c) a)).

Definition success_msg (c : SSHConfig) : str :=
  lit "Successfully connected to " ++ username c ++ lit "@" ++ host c
    ++ lit ":" ++ str_of_Z (port c).

(** Lines 160-243 of [_connect_ssh]: resolve the credentials, open and
    authenticate the transport, open the file-transfer channel. *)
Definition establish (host_ : option str) (port_ : option Z)
    (username_ password_ private_key_ passphrase_ : option str) : M str :=
  env_config <- get_env_ssh_config ;;
  let final_config :=
    merge_config host_ port_ username_ password_ private_key_ passphrase_
                 env_config in
  validate_config final_config ;;
  h <- now ;;
  extern (NewSSHClient h) (fun _ => Ok tt) ;;
  set_ssh_client (Some h) ;;
  with_ssh "set_missing_host_key_policy" (fun h =>
    extern (SetMissingHostKeyPolicy h) (fun _ => Ok tt)) ;;
  (if truthy_str (private_key final_config) then
     let text := match private_key final_config with Some s => s | None => [] end in
     private_key_obj <-
       load_private_key key_types text (private_key_passphrase final_config) ;;
     match private_key_obj with
     | None => raise KEY_LOAD_FAILED
     | Some k => do_connect final_config (AuthPkey k)
     end
   else do_connect final_config (AuthPassword (password final_config))) ;;
  s <- with_ssh "open_sftp" (fun h =>
         s <- now ;;
         extern (OpenSftp h s) (fun t => open_sftp E t h) ;;
         ret s) ;;
  set_sftp_client (Some s) ;;
  set_config (Some final_config) ;;
  ret (success_msg final_config).

(** The [try] block of [_connect_ssh], lines 153-243: an existing connection
    is torn down first. *)
Definition connect_body (host_ : option str) (port_ : option Z)
    (username_ password_ private_key_ passphrase_ : option str) : M str :=
  ssh <- get_ssh_client ;;
  (if truthy_obj ssh then _disconnect_ssh ;; ret tt else ret tt) ;;
  establish host_ port_ username_ password_ private_key_ passphrase_.

(** The [except Exception as e] block of [_connect_ssh], lines 245-261. *)
Definition connect_cleanup (e : exc) : M str :=
  ssh <- get_ssh_client ;;
  (if truthy_obj ssh then
     try_except
       (with_ssh "close" (fun h => extern (ClientClose h) (fun t => client_close E t h)))
       (fun _ => ret tt) ;;
     set_ssh_client None
   else ret tt) ;;
  sftp <- get_sftp_client ;;
  (if truthy_obj sftp then
     try_except
       (with_sftp "close" (fun s => extern (SftpClose s) (fun t => sftp_close E t s)))
       (fun _ => ret tt) ;;
     set_sftp_client None
   else ret tt) ;;
  raise (Exc PyException (lit "SSH connection failed: " ++ exc_msg e)).

Definition _connect_ssh (host_ : option str) (port_ : option Z)
    (username_ password_ private_key_ passphrase_ : option str) : M str :=
  try_except
    (connect_body host_ port_ username_ password_ private_key_ passphrase_)
    connect_cleanup.

Definition NOT_CONNECTED : exc :=
  Exc PyException (lit "Not connected to SSH. Please connect first.").
Definition NOT_CONNECTED_SFTP : exc :=
  Exc PyException (lit "SSHに接続されていません。まず接続してください。").

(** The command line sent to the remote shell, lines 270-272. *)
Definition actual_command (command : str) (cwd : option str) : str :=
  match cwd with
  | Some d => if nonempty d then lit "cd " ++ d ++ lit " && " ++ command
              else command
  | None => command
  end.

(** [x.rstrip() if x.strip() else ""]. *)
Definition shown (data : str) : str :=
  if nonempty (strip data) then rstrip data else [].

(** The text returned by [_execute_command], lines 286-296. *)
Definition format_result (command : str) (exit_code : Z)
    (stdout_data stderr_data : str) : str :=
  join NL [ lit "Command: " ++ command;
            lit "Exit Code: " ++ str_of_Z exit_code;
            [];
            lit "STDOUT:";
            shown stdout_data;
            [];
            lit "STDERR:";
            shown stderr_data ].

(** [_execute_command], lines 263-302. *)
Definition _execute_command (command : str) (cwd : option str) : M str :=
  ssh <- get_ssh_client ;;
  if negb (truthy_obj ssh) then raise NOT_CONNECTED else
  try_except
    (with_ssh "exec_command" (fun h =>
       extern (ExecCommand h (actual_command command cwd))
              (fun t => exec_command E t h (actual_command command cwd)) ;;
       out <- extern (StdoutRead h) (fun t => stdout_read E t h) ;;
       err <- extern (StderrRead h) (fun t => stderr_read E t h) ;;
       exit_code <- extern (RecvExitStatus h) (fun t => recv_exit_status E t h) ;;
       ret (format_result command exit_code
              (decode_utf8_replace out) (decode_utf8_replace err))))
    (fun e => raise (Exc PyException (lit "Command execution failed: " ++ exc_msg e))).

(** [_upload_file], lines 304-334. *)
Definition _upload_file (local_path remote_path : str) : M str :=
  sftp <- get_sftp_client ;;
  if negb (truthy_obj sftp) then raise NOT_CONNECTED_SFTP else
  try_except
    (found <- extern (PathExists local_path)
                     (fun t => Ok (os_path_exists E t local_path)) ;;
     (if negb found
      then raise (Exc FileNotFoundError (lit "Local file not found: " ++ local_path))
      else ret tt) ;;
     let remote_dir := dirname remote_path in
     (if nonempty remote_dir then
        try_except
          (with_sftp "mkdir" (fun s =>
             extern (SftpMkdir s remote_dir) (fun t => sftp_mkdir E t s remote_dir)))
          (fun e => if is_FileExistsError e then ret tt else raise e)
      else ret tt) ;;
     with_sftp "put" (fun s =>
       extern (SftpPut s local_path remote_path)
              (fun t => sftp_put E t s local_path remote_path)) ;;
     ret (lit "Successfully uploaded " ++ local_path ++ lit " to " ++ remote_path))
    (fun e => raise (Exc PyException (lit "File upload failed: " ++ exc_msg e))).

(** [_download_file], lines 336-359. *)
Definition _download_file (remote_path local_path : str) : M str :=
  sftp <- get_sftp_client ;;
  if negb (truthy_obj sftp) then raise NOT_CONNECTED_SFTP else
  try_except
    (let local_dir := dirname local_path in
     (if nonempty local_dir then
        found <- extern (PathExists local_dir)
                        (fun t => Ok (os_path_exists E t local_dir)) ;;
        if negb found
        then extern (Makedirs local_dir) (fun t => os_makedirs E t local_dir)
        else ret tt
      else ret tt) ;;
     with_sftp "get" (fun s =>
       extern (SftpGet s remote_path local_path)
              (fun t => sftp_get E t s remote_path local_path)) ;;
     ret (lit "Successfully downloaded " ++ remote_path ++ lit " to " ++ local_path))
    (fun e => raise (Exc PyException (lit "File download failed: " ++ exc_msg e))).

Definition diagnostic_commands : list str :=
  [ lit "uname -a"; lit "lsb_release -a"; lit "df -h"; lit "free -h";
    lit "ps aux | head -10" ].

(** The [for command in commands] loop of [_get_system_info]. *)
Fixpoint system_info_loop (commands : list str) (output : str) : M str :=
  match commands with
  | [] => ret output
  | command :: rest =>
    output' <-
      try_except
        (with_ssh "exec_command" (fun h =>
           extern (ExecCommand h command) (fun t => exec_command E t h command) ;;
           out <- extern (StdoutRead h) (fun t => stdout_read E t h) ;;
           ret (output ++ lit "=== " ++ command ++ lit " ===" ++ NL
                  ++ decode_utf8_replace out ++ NL ++ NL)))
        (fun e =>
           ret (output ++ lit "=== " ++ command ++ lit " ===" ++ NL
                  ++ lit "Command execution error: " ++ exc_msg e ++ NL ++ NL)) ;;
    system_info_loop rest output'
  end.

(** [_get_system_info], lines 387-420. *)
Definition _get_system_info : M str :=
  ssh <- get_ssh_client ;;
  if negb (truthy_obj ssh) then raise NOT_CONNECTED else
  try_except
    (system_info_loop diagnostic_commands [])
    (fun e => raise (Exc PyException (lit "System info failed: " ++ exc_msg e))).

(** The six tools registered by [register_tools]. *)
Inductive Op : Type :=
| Connect (host_ : option str) (port_ : option Z)
          (username_ password_ private_key_ passphrase_ : option str)
| Disconnect
| Execute (command : str) (cwd : option str)
| Upload (local_path remote_path : str)
| Download (remote_path local_path : str)
| SystemInfo.

Definition run_op (o : Op) : M str :=
  match o with
  | Connect h p u pw k kp => _connect_ssh h p u pw k kp
  | Disconnect => _disconnect_ssh
  | Execute c d => _execute_command c d
  | Upload l r => _upload_file l r
  | Download r l => _download_file r l
  | SystemInfo => _get_system_info
  end.

(** A sequence of tool calls, one after the other, whatever each returns. *)
Fixpoint run_ops (os : list Op) (st : State) : State :=
  match os with
  | [] => st
  | o :: rest => run_ops rest (snd (run_op o st))
  end.

End Methods.

(** [SSHMCPServer.__init__]: no client, no channel, no config. *)
Definition init_server : Server :=
  {| ssh_client := None; sftp_client := None; config := None |}.

Definition init_state : State := St init_server [].

(* ================================================================= *)
(** ** The configuration validator, [validate.py] *)

(** What [validate_ssh_config] has printed and collected so far: one entry
    of [printed] per [print] call, and the list [missing_vars]. *)
Record Report : Type := { printed : list str; missing_vars : list str }.

Definition say (line : str) (r : Report) : Report :=
  {| printed := printed r ++ [line]; missing_vars := missing_vars r |}.

Definition miss (name : string) (r : Report) : Report :=
  {| printed := printed r; missing_vars := missing_vars r ++ [lit name] |}.

Definition is_ValueError (e : exc) : bool :=
  match exc_type e with ValueError => true | _ => false end.

Section Validate.

Variable E : Env.

(** The time at which the environment is read. *)
Variable t : nat.

(** One round of the loop over [required_vars], lines 47-53. *)
Definition check_required (var description : string) (r : Report) : Report :=
  if negb (truthy_str (os_getenv E t (lit var)))
  then miss var (say (lit "  [ERROR] " ++ lit description ++ lit " (" ++ lit var
                        ++ lit ") is not set") r)
  else say (lit "  [OK] " ++ lit description ++ lit " is set") r.

(** The check of the authentication method, lines 55-70. *)
Definition check_authentication (r : Report) : Report :=
  let password_ := os_getenv E t (lit "UBUNTU_SSH_PASSWORD") in
  let private_key_path := os_getenv E t (lit "UBUNTU_SSH_PRIVATE_KEY_PATH") in
  if negb (truthy_str password_) && negb (truthy_str private_key_path) then
    miss "authentication"
      (say (lit "     Please set either UBUNTU_SSH_PASSWORD or UBUNTU_SSH_PRIVATE_KEY_PATH")
         (say (lit "  [ERROR] Neither password nor private key path is set") r))
  else if truthy_str password_ then
    say (lit "  [OK] Password authentication is configured") r
  else
    match private_key_path with
    | Some path =>
      if nonempty path then
        if os_path_exists E t path
        then say (lit "  [OK] Private key authentication is configured") r
        else miss "private_key_file"
               (say (lit "  [ERROR] Private key file not found: " ++ path) r)
      else r
    | None => r
    end.

(** The check of the port number, lines 72-83: only a [ValueError] of
    [int] is caught. *)
Definition check_port (r : Report) : result Report * Report :=
  let port_ := getenv_default E t "UBUNTU_SSH_PORT" "22" in
  match py_int E port_ with
  | Ok port_num =>
    if (1 <=? port_num)%Z && (port_num <=? 65535)%Z
    then let r' := say (lit "  [OK] SSH Port: " ++ str_of_Z port_num) r in
         (Ok r', r')
    else let r' := miss "port"
                     (say (lit "  [ERROR] Invalid port number: " ++ str_of_Z port_num) r) in
         (Ok r', r')
  | Raise e =>
    if is_ValueError e
    then let r' := miss "port"
                     (say (lit "  [ERROR] Invalid port format: " ++ port_) r) in
         (Ok r', r')
    else (Raise e, r)
  end.

(** [validate_ssh_config()], lines 34-85: the value returned (or the error
    that escaped) and the report at that point. *)
Definition validate_ssh_config : result bool * Report :=
  let r0 := say (NL ++ lit "[INFO] SSH configuration validation:")
                {| printed := []; missing_vars := [] |} in
  let r1 := check_required "UBUNTU_SSH_HOST" "SSH Host" r0 in
  let r2 := check_required "UBUNTU_SSH_USERNAME" "SSH Username" r1 in
  let r3 := check_authentication r2 in
  match check_port r3 with
  | (Ok r4, _) =>
    (Ok (Nat.eqb (List.length (missing_vars r4)) 0), r4)
  | (Raise e, r) => (Raise e, r)
  end.

End Validate.

(* ================================================================= *)
(** ** Live sessions *)

(** A transport is live from the moment [connect] returns on it until
    [close] is called on it.  A [close] that raises is a close of an
    already-broken transport, which is not live either. *)
Definition add_handle (h : handle) (l : list handle) : list handle :=
  if existsb (Nat.eqb h) l then l else h :: l.

Definition drop_handle (h : handle) (l : list handle) : list handle :=
  filter (fun x => negb (Nat.eqb h x)) l.

Fixpoint live_transports (tr : list Event) : list handle :=
  match tr with
  | [] => []
  | Ev c r :: older =>
    match c, r with
    | ClientConnect h _ _ _ _ _, None => add_handle h (live_transports older)
    | ClientClose h, _ => drop_handle h (live_transports older)
    | _, _ => live_transports older
    end
  end.

(** At most one transport was live after each call of the trace. *)
Fixpoint at_most_one_always (tr : list Event) : bool :=
  match tr with
  | [] => true
  | _ :: older =>
    (List.length (live_transports tr) <=? 1) && at_most_one_always older
  end.

(** The transport the server object holds. *)
Definition held (s : Server) : list handle :=
  match ssh_client s with Some h => [h] | None => [] end.

(** The session invariant: never more than one live transport, and a live
    transport is the one the server holds. *)
Definition session_inv (st : State) : Prop :=
  at_most_one_always (trace st) = true /\
  (live_transports (trace st) = [] \/
   live_transports (trace st) = held (srv st)).

(** The states of section 4.3. *)
Definition Disconnected (s : Server) : Prop :=
  ssh_client s = None /\ sftp_client s = None.

Definition Connected (s : Server) : Prop :=
  (exists h, ssh_client s = Some h) /\ (exists c, sftp_client s = Some c).

(** Projections of a trace, oldest call first. *)
Definition key_attempt (ev : Event) : list (KeyFormat * str * option str * bool) :=
  match ev with
  | Ev (FromPrivateKey fmt text passphrase) None => [(fmt, text, passphrase, true)]
  | Ev (FromPrivateKey fmt text passphrase) (Some _) => [(fmt, text, passphrase, false)]
  | _ => []
  end.

Definition key_attempts (tr : list Event)
  : list (KeyFormat * str * option str * bool) :=
  flat_map key_attempt (rev tr).

Definition connect_auth (ev : Event) : list Auth :=
  match ev with
  | Ev (ClientConnect _ _ _ _ a _) _ => [a]
  | _ => []
  end.

Definition connect_auths (tr : list Event) : list Auth :=
  flat_map connect_auth (rev tr).

Definition is_mkdir (ev : Event) : bool :=
  match ev_call ev with SftpMkdir _ _ => true | _ => false end.

Definition is_exec (ev : Event) : bool :=
  match ev_call ev with ExecCommand _ _ => true | _ => false end.

(** The calls of a trace, oldest first. *)
Definition calls (tr : list Event) : list Call := map ev_call (rev tr).

(* ================================================================= *)
(** ** Assertions on runs *)

(** [wp m Q st]: running [m] from [st] ends with a result and a state that
    satisfy [Q].  Every method is a total function, so a run always ends. *)
Definition wp {A} (m : M A) (Q : result A -> State -> Prop) (st : State) : Prop :=
  Q (fst (m st)) (snd (m st)).

(** Calls that neither open nor close a transport. *)
Definition neutral_event (ev : Event) : bool :=
  match ev with
  | Ev (ClientConnect _ _ _ _ _ _) None => false
  | Ev (ClientClose _) _ => false
  | _ => true
  end.

Definition neutral_call (c : Call) : bool :=
  match c with
  | ClientConnect _ _ _ _ _ _ => false
  | ClientClose _ => false
  | _ => true
  end.

(** [st'] extends [st] by neutral calls and holds the same transport. *)
Definition stable (st st' : State) : Prop :=
  ssh_client (srv st') = ssh_client (srv st) /\
  exists evs, trace st' = evs ++ trace st /\ forallb neutral_event evs = true.

(** A computation that only makes neutral calls and leaves [self.ssh_client]
    alone. *)
Definition neutral {A} (m : M A) : Prop := forall st, stable st (snd (m st)).

(** A computation only ever appends to the trace. *)
Definition extends_trace {A} (m : M A) : Prop :=
  forall st, exists new, trace (snd (m st)) = new ++ trace st.

(** No transport is live. *)
Definition quiet (st : State) : Prop :=
  session_inv st /\ live_transports (trace st) = [].

(** Exactly one transport is live, the one the server holds. *)
Definition one_live (st : State) : Prop :=
  session_inv st /\
  exists h, ssh_client (srv st) = Some h /\ live_transports (trace st) = [h].

(** Calls that use a session without opening or closing anything. *)
Definition borrow_call (c : Call) : bool :=
  match c with
  | ExecCommand _ _ | StdoutRead _ | StderrRead _ | RecvExitStatus _
  | PathExists _ | SftpMkdir _ _ | SftpPut _ _ _ | Makedirs _
  | SftpGet _ _ _ => true
  | _ => false
  end.

(** A computation that leaves the three attributes of the server alone and
    makes borrowing calls only. *)
Definition borrows {A} (m : M A) : Prop :=
  forall st,
    srv (snd (m st)) = srv st /\
    exists new,
      trace (snd (m st)) = new ++ trace st /\
      forallb (fun ev => borrow_call (ev_call ev)) new = true.

(** A file-transfer channel is only ever held together with a transport. *)
Definition channel_on_transport (s : Server) : Prop :=
  sftp_client s <> None -> ssh_client s <> None.

(** The command lines sent to the remote shell, oldest first. *)
Definition dispatched (tr : list Event) : list str :=
  flat_map (fun ev => match ev_call ev with
                      | ExecCommand _ cmd => [cmd]
                      | _ => []
                      end) (rev tr).

(** One section of the text [_get_system_info] returns. *)
Definition info_section (command body : str) : str :=
  lit "=== " ++ command ++ lit " ===" ++ NL ++ body ++ NL ++ NL.

(** One pass of the loop of lines 404-412 for [command] on the transport
    [h], started at time [t]: the calls it makes, oldest first, with what the
    world answered, and the body of the section it adds. *)
Inductive section_run (E : Env) (h : handle) (t : nat) (command : str)
  : list Event -> str -> Prop :=
| exec_raises x :
    exec_command E t h command = Raise x ->
    section_run E h t command
      [Ev (ExecCommand h command) (Some x)]
      (lit "Command execution error: " ++ exc_msg x)
| read_raises x :
    exec_command E t h command = Ok tt ->
    stdout_read E (S t) h = Raise x ->
    section_run E h t command
      [Ev (ExecCommand h command) None; Ev (StdoutRead h) (Some x)]
      (lit "Command execution error: " ++ exc_msg x)
| read_returns out :
    exec_command E t h command = Ok tt ->
    stdout_read E (S t) h = Ok out ->
    section_run E h t command
      [Ev (ExecCommand h command) None; Ev (StdoutRead h) None]
      (decode_utf8_replace out).

(** The passes for a list of commands, one after the other: the next pass
    starts when the calls of the one before are done. *)
Inductive report_run (E : Env) (h : handle)
  : nat -> list str -> list Event -> list str -> Prop :=
| report_nil t : report_run E h t [] [] []
| report_cons t command rest evs evs' body bodies :
    section_run E h t command evs body ->
    report_run E h (List.length evs + t) rest evs' bodies ->
    report_run E h t (command :: rest) (evs ++ evs') (body :: bodies).

(* ================================================================= *)
(** ** Concrete worlds for the examples *)

Module Worlds.

Definition boom : exc := Exc OSError (lit "Socket is closed").

(** A world in which nothing raises: no variable is set, every path exists,
    every command prints [ok] and exits with status 1. *)
Definition calm : Env :=
  {| os_getenv := fun _ _ => None;
     os_path_exists := fun _ _ => true;
     read_text := fun _ _ => Ok [];
     py_int := fun _ => Ok 22%Z;
     from_private_key := fun _ _ _ _ => Ok tt;
     client_connect := fun _ _ _ _ _ _ => Ok tt;
     open_sftp := fun _ _ => Ok tt;
     client_close := fun _ _ => Ok tt;
     sftp_close := fun _ _ => Ok tt;
     exec_command := fun _ _ _ => Ok tt;
     stdout_read := fun _ _ => Ok [x6f; x6b; x0a]%byte;
     stderr_read := fun _ _ => Ok [];
     recv_exit_status := fun _ _ => Ok 1%Z;
     sftp_mkdir := fun _ _ _ => Ok tt;
     sftp_put := fun _ _ _ _ => Ok tt;
     os_makedirs := fun _ _ => Ok tt;
     sftp_get := fun _ _ _ _ => Ok tt |}.

(** As [calm], but closing the file-transfer channel raises. *)
Definition broken_sftp : Env :=
  {| os_getenv := os_getenv calm;
     os_path_exists := os_path_exists calm;
     read_text := read_text calm;
     py_int := py_int calm;
     from_private_key := from_private_key calm;
     client_connect := client_connect calm;
     open_sftp := open_sftp calm;
     client_close := client_close calm;
     sftp_close := fun _ _ => Raise boom;
     exec_command := exec_command calm;
     stdout_read := stdout_read calm;
     stderr_read := stderr_read calm;
     recv_exit_status := recv_exit_status calm;
     sftp_mkdir := sftp_mkdir calm;
     sftp_put := sftp_put calm;
     os_makedirs := os_makedirs calm;
     sftp_get := sftp_get calm |}.

(** As [calm], but only the Ed25519 class reads the key text. *)
Definition ed25519_only : Env :=
  {| os_getenv := os_getenv calm;
     os_path_exists := os_path_exists calm;
     read_text := read_text calm;
     py_int := py_int calm;
     from_private_key := fun _ fmt _ _ =>
       match fmt with
       | Ed25519 => Ok tt
       | _ => Raise (Exc SSHException (lit "not a valid private key file"))
       end;
     client_connect := client_connect calm;
     open_sftp := open_sftp calm;
     client_close := client_close calm;
     sftp_close := sftp_close calm;
     exec_command := exec_command calm;
     stdout_read := stdout_read calm;
     stderr_read := stderr_read calm;
     recv_exit_status := recv_exit_status calm;
     sftp_mkdir := sftp_mkdir calm;
     sftp_put := sftp_put calm;
     os_makedirs := os_makedirs calm;
     sftp_get := sftp_get calm |}.

(** As [calm], but the remote rejects the credentials. *)
Definition rejecting : Env :=
  {| os_getenv := os_getenv calm;
     os_path_exists := os_path_exists calm;
     read_text := read_text calm;
     py_int := py_int calm;
     from_private_key := from_private_key calm;
     client_connect := fun _ _ _ _ _ _ =>
       Raise (Exc AuthenticationException (lit "Authentication failed."));
     open_sftp := open_sftp calm;
     client_close := client_close calm;
     sftp_close := sftp_close calm;
     exec_command := exec_command calm;
     stdout_read := stdout_read calm;
     stderr_read := stderr_read calm;
     recv_exit_status := recv_exit_status calm;
     sftp_mkdir := sftp_mkdir calm;
     sftp_put := sftp_put calm;
     os_makedirs := os_makedirs calm;
     sftp_get := sftp_get calm |}.

(** As [calm], but no local path exists. *)
Definition empty_disk : Env :=
  {| os_getenv := os_getenv calm;
     os_path_exists := fun _ _ => false;
     read_text := read_text calm;
     py_int := py_int calm;
     from_private_key := from_private_key calm;
     client_connect := client_connect calm;
     open_sftp := open_sftp calm;
     client_close := client_close calm;
     sftp_close := sftp_close calm;
     exec_command := exec_command calm;
     stdout_read := stdout_read calm;
     stderr_read := stderr_read calm;
     recv_exit_status := recv_exit_status calm;
     sftp_mkdir := sftp_mkdir calm;
     sftp_put := sftp_put calm;
     os_makedirs := os_makedirs calm;
     sftp_get := sftp_get calm |}.

(** As [calm], but the text of the port variable is not a number. *)
Definition bad_port : Env :=
  {| os_getenv := os_getenv calm;
     os_path_exists := os_path_exists calm;
     read_text := read_text calm;
     py_int := fun _ =>
       Raise (Exc ValueError (lit "invalid literal for int() with base 10: 'ssh'"));
     from_private_key := from_private_key calm;
     client_connect := client_connect calm;
     open_sftp := open_sftp calm;
     client_close := client_close calm;
     sftp_close := sftp_close calm;
     exec_command := exec_command calm;
     stdout_read := stdout_read calm;
     stderr_read := stderr_read calm;
     recv_exit_status := recv_exit_status calm;
     sftp_mkdir := sftp_mkdir calm;
     sftp_put := sftp_put calm;
     os_makedirs := os_makedirs calm;
     sftp_get := sftp_get calm |}.

(** As [calm], but every variable is set to [/id], a file that exists and
    cannot be read. *)
Definition unreadable_key : Env :=
  {| os_getenv := fun _ _ => Some (lit "/id");
     os_path_exists := os_path_exists calm;
     read_text := fun _ _ =>
       Raise (Exc (OtherError "PermissionError") (lit "Permission denied"));
     py_int := py_int calm;
     from_private_key := from_private_key calm;
     client_connect := client_connect calm;
     open_sftp := open_sftp calm;
     client_close := client_close calm;
     sftp_close := sftp_close calm;
     exec_command := exec_command calm;
     stdout_read := stdout_read calm;
     stderr_read := stderr_read calm;
     recv_exit_status := recv_exit_status calm;
     sftp_mkdir := sftp_mkdir calm;
     sftp_put := sftp_put calm;
     os_makedirs := os_makedirs calm;
     sftp_get := sftp_get calm |}.

(** As [calm], but closing a transport raises. *)
Definition broken_transport : Env :=
  {| os_getenv := os_getenv calm;
     os_path_exists := os_path_exists calm;
     read_text := read_text calm;
     py_int := py_int calm;
     from_private_key := from_private_key calm;
     client_connect := client_connect calm;
     open_sftp := open_sftp calm;
     client_close := fun _ _ => Raise boom;
     sftp_close := sftp_close calm;
     exec_command := exec_command calm;
     stdout_read := stdout_read calm;
     stderr_read := stderr_read calm;
     recv_exit_status := recv_exit_status calm;
     sftp_mkdir := sftp_mkdir calm;
     sftp_put := sftp_put calm;
     os_makedirs := os_makedirs calm;
     sftp_get := sftp_get calm |}.

(** As [calm], but every variable except the password is set to [/id], a
    file that exists and cannot be read; no password is set. *)
Definition key_only : Env :=
  {| os_getenv := fun _ name =>
       if list_eq_dec N.eq_dec name (lit "UBUNTU_SSH_PASSWORD")
       then None else Some (lit "/id");
     os_path_exists := os_path_exists calm;
     read_text := fun _ _ =>
       Raise (Exc (OtherError "PermissionError") (lit "Permission denied"));
     py_int := py_int calm;
     from_private_key := from_private_key calm;
     client_connect := client_connect calm;
     open_sftp := open_sftp calm;
     client_close := client_close calm;
     sftp_close := sftp_close calm;
     exec_command := exec_command calm;
     stdout_read := stdout_read calm;
     stderr_read := stderr_read calm;
     recv_exit_status := recv_exit_status calm;
     sftp_mkdir := sftp_mkdir calm;
     sftp_put := sftp_put calm;
     os_makedirs := os_makedirs calm;
     sftp_get := sftp_get calm |}.

(** As [calm], but no key class reads the key text. *)
Definition no_key_parses : Env :=
  {| os_getenv := os_getenv calm;
     os_path_exists := os_path_exists calm;
     read_text := read_text calm;
     py_int := py_int calm;
     from_private_key := fun _ _ _ _ =>
       Raise (Exc SSHException (lit "not a valid private key file"));
     client_connect := client_connect calm;
     open_sftp := open_sftp calm;
     client_close := client_close calm;
     sftp_close := sftp_close calm;
     exec_command := exec_command calm;
     stdout_read := stdout_read calm;
     stderr_read := stderr_read calm;
     recv_exit_status := recv_exit_status calm;
     sftp_mkdir := sftp_mkdir calm;
     sftp_put := sftp_put calm;
     os_makedirs := os_makedirs calm;
     sftp_get := sftp_get calm |}.

(** As [calm], but the file-transfer channel cannot be opened. *)
Definition no_sftp : Env :=
  {| os_getenv := os_getenv calm;
     os_path_exists := os_path_exists calm;
     read_text := read_text calm;
     py_int := py_int calm;
     from_private_key := from_private_key calm;
     client_connect := client_connect calm;
     open_sftp := fun _ _ => Raise (Exc SSHException (lit "Channel closed."));
     client_close := client_close calm;
     sftp_close := sftp_close calm;
     exec_command := exec_command calm;
     stdout_read := stdout_read calm;
     stderr_read := stderr_read calm;
     recv_exit_status := recv_exit_status calm;
     sftp_mkdir := sftp_mkdir calm;
     sftp_put := sftp_put calm;
     os_makedirs := os_makedirs calm;
     sftp_get := sftp_get calm |}.

(** As [calm], but [lsb_release -a] cannot be started. *)
Definition no_lsb_release : Env :=
  {| os_getenv := os_getenv calm;
     os_path_exists := os_path_exists calm;
     read_text := read_text calm;
     py_int := py_int calm;
     from_private_key := from_private_key calm;
     client_connect := client_connect calm;
     open_sftp := open_sftp calm;
     client_close := client_close calm;
     sftp_close := sftp_close calm;
     exec_command := fun _ _ command =>
       if list_eq_dec N.eq_dec command (lit "lsb_release -a")
       then Raise (Exc SSHException (lit "SSH session not active"))
       else Ok tt;
     stdout_read := stdout_read calm;
     stderr_read := stderr_read calm;
     recv_exit_status := recv_exit_status calm;
     sftp_mkdir := sftp_mkdir calm;
     sftp_put := sftp_put calm;
     os_makedirs := os_makedirs calm;
     sftp_get := sftp_get calm |}.

(** As [calm], but every [mkdir] raises a plain [OSError]. *)
Definition existing_directory : Env :=
  {| os_getenv := os_getenv calm;
     os_path_exists := os_path_exists calm;
     read_text := read_text calm;
     py_int := py_int calm;
     from_private_key := from_private_key calm;
     client_connect := client_connect calm;
     open_sftp := open_sftp calm;
     client_close := client_close calm;
     sftp_close := sftp_close calm;
     exec_command := exec_command calm;
     stdout_read := stdout_read calm;
     stderr_read := stderr_read calm;
     recv_exit_status := recv_exit_status calm;
     sftp_mkdir := fun _ _ _ => Raise (Exc OSError (lit "Failure"));
     sftp_put := sftp_put calm;
     os_makedirs := os_makedirs calm;
     sftp_get := sftp_get calm |}.

(** As [calm], but no directory can be made on the remote. *)
Definition read_only_remote : Env :=
  {| os_getenv := os_getenv calm;
     os_path_exists := os_path_exists calm;
     read_text := read_text calm;
     py_int := py_int calm;
     from_private_key := from_private_key calm;
     client_connect := client_connect calm;
     open_sftp := open_sftp calm;
     client_close := client_close calm;
     sftp_close := sftp_close calm;
     exec_command := exec_command calm;
     stdout_read := stdout_read calm;
     stderr_read := stderr_read calm;
     recv_exit_status := recv_exit_status calm;
     sftp_mkdir := fun _ _ _ =>
       Raise (Exc (OtherError "PermissionError") (lit "Permission denied"));
     sftp_put := sftp_put calm;
     os_makedirs := os_makedirs calm;
     sftp_get := sftp_get calm |}.

Definition some_config : SSHConfig :=
  {| host := lit "10.0.0.5"; port := 22; username := lit "ubuntu";
     password := Some (lit "secret"); private_key := None;
     private_key_passphrase := None |}.

(** A connected server: client 1 and channel 4 were made by a
    [_connect_ssh] from the initial state (see [connected_state_reached]). *)
Definition connected_server : Server :=
  {| ssh_client := Some 1; sftp_client := Some 4; config := Some some_config |}.

Definition connected_trace : list Event :=
  [ Ev (OpenSftp 1 4) None;
    Ev (ClientConnect 1 (lit "10.0.0.5") 22 (lit "ubuntu")
                      (AuthPassword (Some (lit "secret"))) 30) None;
    Ev (SetMissingHostKeyPolicy 1) None;
    Ev (NewSSHClient 1) None;
    Ev GetEnvConfig None ].

Definition connected_state : State := St connected_server connected_trace.

End Worlds.
Import Worlds.

(* ================================================================= *)
(** * Properties *)


Arguments lit : simpl never.
Arguments str_of_Z : simpl never.
Arguments dirname : simpl never.
Arguments decode_utf8_replace : simpl never.
Arguments merge_config : simpl never.
Arguments format_result : simpl never.

(** ** Strings *)

Example decode_ascii :
  decode_utf8_replace [x68; x69]%byte = [104; 105]%N.
Proof. reflexivity. Qed.

Example decode_truncated :
  decode_utf8_replace [xe2; x82]%byte = [REPLACEMENT].
Proof. reflexivity. Qed.

Example decode_bad_start :
  decode_utf8_replace [xff; x41]%byte = [REPLACEMENT; 65%N].
Proof. reflexivity. Qed.

Example decode_euro :
  decode_utf8_replace [xe2; x82; xac]%byte = [0x20AC%N].
Proof. reflexivity. Qed.

Example dirname_nested : dirname (lit "/tmp/a/b.txt") = lit "/tmp/a".
Proof. reflexivity. Qed.

Example dirname_root : dirname (lit "/b.txt") = lit "/".
Proof. reflexivity. Qed.

Example dirname_bare : dirname (lit "b.txt") = [].
Proof. reflexivity. Qed.

Example str_of_Z_neg : str_of_Z (-1) = lit "-1".
Proof. reflexivity. Qed.

Example str_of_Z_zero : str_of_Z 0 = lit "0".
Proof. reflexivity. Qed.

Lemma drop_while_all p s :
  forallb p s = true -> drop_while p s = [].
Proof.
  induction s as [|c s IH]; simpl; [reflexivity|].
  destruct (p c); simpl; [exact IH | discriminate].
Qed.

Lemma drop_while_nil_all p s :
  drop_while p s = [] -> forallb p s = true.
Proof.
  induction s as [|c s IH]; simpl; [reflexivity|].
  destruct (p c); simpl; [exact IH | discriminate].
Qed.

Lemma drop_while_head p s c r :
  drop_while p s = c :: r -> p c = false.
Proof.
  induction s as [|x s IH]; simpl; [discriminate|].
  destruct (p x) eqn:Hx; [exact IH|].
  intros H; injection H as <- _; exact Hx.
Qed.

(** A right-stripped string is empty or ends with a character that is not
    white space, so stripping it on the left cannot empty it. *)
Lemma strip_empty_rstrip_empty s : strip s = [] -> rstrip s = [].
Proof.
  unfold strip, lstrip, rstrip, rstrip_by. intros H.
  apply drop_while_nil_all in H.
  destruct (drop_while isspace (rev s)) as [|c r] eqn:Hd; [reflexivity|].
  apply drop_while_head in Hd.
  simpl in H. rewrite forallb_app in H. simpl in H.
  rewrite Hd in H. rewrite andb_false_r in H. discriminate.
Qed.

(** The conditional of lines 291 and 294 never takes its second branch with
    anything left to drop: the text shown is the right-stripped output. *)
Lemma shown_rstrip s : shown s = rstrip s.
Proof.
  unfold shown. destruct (strip s) eqn:Hs; simpl; [|reflexivity].
  symmetry. apply strip_empty_rstrip_empty. exact Hs.
Qed.

(** ** Rules for [wp] *)

Section Rules.

Context {A B : Type}.

Lemma wp_ret (a : A) Q st : Q (Ok a) st -> wp (ret a) Q st.
Proof. exact (fun H => H). Qed.

Lemma wp_raise (e : exc) (Q : result A -> State -> Prop) st :
  Q (Raise e) st -> wp (raise e) Q st.
Proof. exact (fun H => H). Qed.

Lemma wp_bind (m : M A) (k : A -> M B) Q st :
  wp m (fun r st' =>
          match r with
          | Ok a => wp (k a) Q st'
          | Raise e => Q (Raise e) st'
          end) st ->
  wp (bind m k) Q st.
Proof.
  unfold wp, bind. destruct (m st) as [[a|e] st']; simpl; auto.
Qed.

Lemma wp_try (m : M A) (h : exc -> M A) Q st :
  wp m (fun r st' =>
          match r with
          | Ok a => Q (Ok a) st'
          | Raise e => wp (h e) Q st'
          end) st ->
  wp (try_except m h) Q st.
Proof.
  unfold wp, try_except. destruct (m st) as [[a|e] st']; simpl; auto.
Qed.

Lemma wp_mono (m : M A) (Q Q' : result A -> State -> Prop) st :
  wp m Q st -> (forall r st', Q r st' -> Q' r st') -> wp m Q' st.
Proof. unfold wp. auto. Qed.

Lemma wp_extern (c : Call) (answer : nat -> result A) Q st :
  (forall r, r = answer (List.length (trace st)) ->
     Q r (St (srv st)
             (Ev c (match r with Ok _ => None | Raise e => Some e end)
                :: trace st))) ->
  wp (extern c answer) Q st.
Proof. unfold wp, extern. simpl. intros H. apply H. reflexivity. Qed.

End Rules.

Lemma wp_get_ssh_client Q st :
  Q (Ok (ssh_client (srv st))) st -> wp get_ssh_client Q st.
Proof. exact (fun H => H). Qed.

Lemma wp_get_sftp_client Q st :
  Q (Ok (sftp_client (srv st))) st -> wp get_sftp_client Q st.
Proof. exact (fun H => H). Qed.

Lemma wp_now Q st : Q (Ok (List.length (trace st))) st -> wp now Q st.
Proof. exact (fun H => H). Qed.

Lemma wp_with_ssh {A} name (k : handle -> M A) Q st :
  match ssh_client (srv st) with
  | Some h => wp (k h) Q st
  | None => Q (Raise (attr_of_none name)) st
  end ->
  wp (with_ssh name k) Q st.
Proof.
  unfold wp, with_ssh, bind, get_ssh_client. simpl.
  destruct (ssh_client (srv st)); auto.
Qed.

Lemma wp_with_sftp {A} name (k : handle -> M A) Q st :
  match sftp_client (srv st) with
  | Some h => wp (k h) Q st
  | None => Q (Raise (attr_of_none name)) st
  end ->
  wp (with_sftp name k) Q st.
Proof.
  unfold wp, with_sftp, bind, get_sftp_client. simpl.
  destruct (sftp_client (srv st)); auto.
Qed.

(** ** Neutral computations *)

Lemma stable_refl st : stable st st.
Proof. split; [reflexivity|]. exists []. split; reflexivity. Qed.

Lemma stable_trans st1 st2 st3 :
  stable st1 st2 -> stable st2 st3 -> stable st1 st3.
Proof.
  intros [H1 [e1 [T1 N1]]] [H2 [e2 [T2 N2]]]. split; [congruence|].
  exists (e2 ++ e1). split.
  - rewrite T2, T1. apply app_assoc.
  - rewrite forallb_app, N1, N2. reflexivity.
Qed.

Lemma neutral_call_event c r :
  neutral_call c = true -> neutral_event (Ev c r) = true.
Proof. destruct c, r; simpl; congruence. Qed.

Section Neutral.

Context {A B : Type}.

Lemma neutral_ret (a : A) : neutral (ret a).
Proof. intros st. apply stable_refl. Qed.

Lemma neutral_raise (e : exc) : neutral (@raise A e).
Proof. intros st. apply stable_refl. Qed.

Lemma neutral_bind (m : M A) (k : A -> M B) :
  neutral m -> (forall a, neutral (k a)) -> neutral (bind m k).
Proof.
  intros Hm Hk st. unfold bind. specialize (Hm st).
  destruct (m st) as [[a|e] st']; simpl in *; [|exact Hm].
  eapply stable_trans; [exact Hm | apply Hk].
Qed.

Lemma neutral_try (m : M A) (h : exc -> M A) :
  neutral m -> (forall e, neutral (h e)) -> neutral (try_except m h).
Proof.
  intros Hm Hh st. unfold try_except. specialize (Hm st).
  destruct (m st) as [[a|e] st']; simpl in *; [exact Hm|].
  eapply stable_trans; [exact Hm | apply Hh].
Qed.

Lemma neutral_extern (c : Call) (answer : nat -> result A) :
  neutral_call c = true -> neutral (extern c answer).
Proof.
  intros Hc st. unfold extern. simpl. split; [reflexivity|].
  eexists [_]. split; [reflexivity|]. cbn [forallb].
  rewrite (neutral_call_event _ _ Hc). reflexivity.
Qed.

Lemma neutral_with_ssh name (k : handle -> M A) :
  (forall h, neutral (k h)) -> neutral (with_ssh name k).
Proof.
  intros Hk st. unfold with_ssh, bind, get_ssh_client. simpl.
  destruct (ssh_client (srv st)); [apply Hk | apply stable_refl].
Qed.

Lemma neutral_with_sftp name (k : handle -> M A) :
  (forall h, neutral (k h)) -> neutral (with_sftp name k).
Proof.
  intros Hk st. unfold with_sftp, bind, get_sftp_client. simpl.
  destruct (sftp_client (srv st)); [apply Hk | apply stable_refl].
Qed.

End Neutral.

Lemma neutral_get_ssh_client : neutral get_ssh_client.
Proof. intros st. apply stable_refl. Qed.

Lemma neutral_get_sftp_client : neutral get_sftp_client.
Proof. intros st. apply stable_refl. Qed.

Lemma neutral_now : neutral now.
Proof. intros st. apply stable_refl. Qed.

Lemma neutral_set_sftp_client v : neutral (set_sftp_client v).
Proof. intros st. split; [reflexivity|]. exists []. split; reflexivity. Qed.

Lemma neutral_set_config v : neutral (set_config v).
Proof. intros st. split; [reflexivity|]. exists []. split; reflexivity. Qed.

Create HintDb neutral.
#[local] Hint Resolve neutral_ret neutral_raise neutral_get_ssh_client
  neutral_get_sftp_client neutral_now neutral_set_sftp_client
  neutral_set_config : neutral.

(** Splits a computation along its binds, handlers and branches. *)
Ltac neutral_tac :=
  repeat first
    [ progress intros
    | apply neutral_bind
    | apply neutral_try
    | apply neutral_with_ssh
    | apply neutral_with_sftp
    | apply neutral_extern; reflexivity
    | solve [auto with neutral]
    | match goal with
      | |- neutral (if ?b then _ else _) => destruct b
      | |- neutral (match ?x with _ => _ end) => destruct x
      end ].

Lemma neutral_get_env_ssh_config E : neutral (get_env_ssh_config E).
Proof. unfold get_env_ssh_config. neutral_tac. Qed.

Lemma neutral_validate_config c : neutral (validate_config c).
Proof. unfold validate_config. neutral_tac. Qed.

Lemma neutral_load_private_key E kts text passphrase :
  neutral (load_private_key E kts text passphrase).
Proof.
  induction kts as [|fmt rest IH]; simpl; neutral_tac.
Qed.

#[local] Hint Resolve neutral_get_env_ssh_config neutral_validate_config
  neutral_load_private_key : neutral.

Lemma neutral_execute_command E command cwd :
  neutral (_execute_command E command cwd).
Proof. unfold _execute_command. neutral_tac. Qed.

Lemma neutral_upload_file E local_path remote_path :
  neutral (_upload_file E local_path remote_path).
Proof. unfold _upload_file. neutral_tac. Qed.

Lemma neutral_download_file E remote_path local_path :
  neutral (_download_file E remote_path local_path).
Proof. unfold _download_file. neutral_tac. Qed.

Lemma neutral_system_info_loop E commands :
  forall output, neutral (system_info_loop E commands output).
Proof.
  induction commands as [|command rest IH]; intros output; simpl; neutral_tac.
Qed.

Lemma neutral_get_system_info E : neutral (_get_system_info E).
Proof.
  unfold _get_system_info. neutral_tac.
Qed.

(** ** The session invariant along neutral calls *)

Lemma live_neutral_app evs tr :
  forallb neutral_event evs = true ->
  live_transports (evs ++ tr) = live_transports tr.
Proof.
  induction evs as [|[c r] evs IH]; simpl; [reflexivity|].
  intros H. apply andb_prop in H as [Hc Hr]. specialize (IH Hr).
  destruct c; try exact IH; destruct r; try exact IH; discriminate.
Qed.

Lemma history_neutral_app evs tr :
  forallb neutral_event evs = true ->
  List.length (live_transports tr) <= 1 ->
  at_most_one_always tr = true ->
  at_most_one_always (evs ++ tr) = true.
Proof.
  intros Hn Hlen Hh. induction evs as [|ev evs IH]; [exact Hh|].
  pose proof (live_neutral_app (ev :: evs) tr Hn) as Hl.
  simpl in Hn. apply andb_prop in Hn as [_ Hr].
  change ((ev :: evs) ++ tr) with (ev :: (evs ++ tr)) in *.
  cbn [at_most_one_always]. rewrite Hl, (IH Hr), andb_true_r.
  apply Nat.leb_le. exact Hlen.
Qed.

Lemma session_inv_length st :
  session_inv st -> List.length (live_transports (trace st)) <= 1.
Proof.
  intros [_ [H|H]]; rewrite H; [simpl; lia|].
  unfold held. destruct (ssh_client (srv st)); simpl; lia.
Qed.

Lemma stable_live st st' :
  stable st st' -> live_transports (trace st') = live_transports (trace st).
Proof.
  intros [_ [evs [T N]]]. rewrite T. apply live_neutral_app. exact N.
Qed.

Lemma stable_session_inv st st' :
  stable st st' -> session_inv st -> session_inv st'.
Proof.
  intros Hs Hi. pose proof (session_inv_length Hi) as Hlen.
  pose proof (stable_live Hs) as Hl.
  destruct Hs as [Hc [evs [T N]]]. destruct Hi as [Hh Hcase]. split.
  - rewrite T. apply history_neutral_app; assumption.
  - rewrite Hl. unfold held in *. rewrite Hc. exact Hcase.
Qed.

Lemma stable_quiet st st' : stable st st' -> quiet st -> quiet st'.
Proof.
  intros Hs [Hi Hl]. split; [eapply stable_session_inv; eauto|].
  rewrite (stable_live Hs). exact Hl.
Qed.

Lemma stable_one_live st st' : stable st st' -> one_live st -> one_live st'.
Proof.
  intros Hs [Hi [h [Hc Hl]]]. split; [eapply stable_session_inv; eauto|].
  exists h. rewrite (stable_live Hs). destruct Hs as [Hc' _].
  split; congruence.
Qed.

Lemma wp_neutral {A} (m : M A) Q st :
  neutral m -> (forall r st', stable st st' -> Q r st') -> wp m Q st.
Proof. intros Hm HQ. apply HQ. apply Hm. Qed.

(** ** The session invariant along [_disconnect_ssh] and [_connect_ssh] *)

Lemma quiet_any_server s s' tr : quiet (St s tr) -> quiet (St s' tr).
Proof.
  intros [[Hh _] Hl]. simpl in *. repeat split; simpl; auto.
Qed.

Lemma quiet_session_inv st : quiet st -> session_inv st.
Proof. intros [H _]. exact H. Qed.

Lemma one_live_session_inv st : one_live st -> session_inv st.
Proof. intros [H _]. exact H. Qed.

Lemma none_held_quiet st :
  session_inv st -> ssh_client (srv st) = None -> quiet st.
Proof.
  intros Hi Hn. split; [exact Hi|]. destruct Hi as [_ [H|H]]; [exact H|].
  rewrite H. unfold held. rewrite Hn. reflexivity.
Qed.

Lemma close_held_quiet s tr h r :
  session_inv (St s tr) -> ssh_client s = Some h ->
  quiet (St s (Ev (ClientClose h) r :: tr)).
Proof.
  intros [Hh Hl] Hc. simpl in *.
  assert (Hd : drop_handle h (live_transports tr) = []).
  { destruct Hl as [Hl|Hl]; rewrite Hl; [reflexivity|].
    unfold held. rewrite Hc. simpl. rewrite Nat.eqb_refl. reflexivity. }
  repeat split; simpl; rewrite ?Hd; simpl; auto.
Qed.

Lemma connect_ok_one_live s tr h hostname prt user a timeout :
  quiet (St s tr) -> ssh_client s = Some h ->
  one_live (St s (Ev (ClientConnect h hostname prt user a timeout) None :: tr)).
Proof.
  intros [[Hh _] Hl] Hc. simpl in *.
  repeat split; simpl; rewrite ?Hl; simpl; auto.
  - right. unfold held. rewrite Hc. reflexivity.
  - exists h. split; [exact Hc | reflexivity].
Qed.

Lemma connect_raise_quiet s tr h hostname prt user a timeout e :
  quiet (St s tr) ->
  quiet (St s (Ev (ClientConnect h hostname prt user a timeout) (Some e) :: tr)).
Proof.
  intros [[Hh _] Hl]. simpl in *.
  repeat split; simpl; rewrite ?Hl; simpl; auto.
Qed.

Lemma neutral_step_stable s tr c r :
  neutral_call c = true -> stable (St s tr) (St s (Ev c r :: tr)).
Proof.
  intros Hc. split; [reflexivity|]. exists [Ev c r]. split; [reflexivity|].
  cbn [forallb]. rewrite (neutral_call_event _ _ Hc). reflexivity.
Qed.

Lemma same_client_stable s s' tr :
  ssh_client s' = ssh_client s -> stable (St s tr) (St s' tr).
Proof. intros H. split; [exact H|]. exists []. split; reflexivity. Qed.


Ltac run_step :=
  match goal with
  | |- context [match ?X with Ok _ => _ | Raise _ => _ end] =>
      lazymatch X with
      | context [match _ with _ => _ end] => fail
      | context [if _ then _ else _] => fail
      | _ => destruct X eqn:?
      end
  end.

Ltac unfold_m :=
  repeat progress
    unfold wp, try_except, bind, with_ssh, with_sftp, get_ssh_client,
      get_sftp_client, set_ssh_client, set_sftp_client, set_config, extern,
      ret, raise, now.

Ltac inv_solve H :=
  let Hh := fresh "Hh" in
  let Hl := fresh "Hl" in
  destruct H as [Hh Hl];
  unfold quiet, one_live, session_inv, held in *; simpl in *;
  destruct Hl as [Hl | Hl]; rewrite ?Hl in *; simpl;
  rewrite ?Nat.eqb_refl; simpl; rewrite ?Hh; auto.

(** [_disconnect_ssh] keeps the invariant; when it returns, nothing is held
    and nothing is live. *)
Lemma disconnect_spec E st :
  session_inv st ->
  wp (_disconnect_ssh E)
     (fun r st' =>
        match r with
        | Ok _ => quiet st' /\ srv st' = init_server
        | Raise _ => session_inv st'
        end) st.
Proof.
  intros Hi. destruct st as [[ssh sftp cfg] tr].
  unfold _disconnect_ssh, disconnect_body. unfold_m.
  destruct ssh, sftp; simpl; repeat (run_step; simpl).
  all: try (split; [|reflexivity]); inv_solve Hi.
Qed.

(** The [except] block of [_connect_ssh] always raises, and leaves nothing
    held and nothing live. *)
Lemma cleanup_spec E e st :
  session_inv st ->
  wp (connect_cleanup E e)
     (fun r st' =>
        r = Raise (Exc PyException (lit "SSH connection failed: " ++ exc_msg e)) /\
        quiet st' /\ Disconnected (srv st')) st.
Proof.
  intros Hi. destruct st as [[ssh sftp cfg] tr].
  unfold connect_cleanup, Disconnected. unfold_m.
  destruct ssh, sftp; simpl; repeat (run_step; simpl).
  all: split; [reflexivity|]; split; [|split; reflexivity]; inv_solve Hi.
Qed.

Lemma do_connect_spec E c a st :
  quiet st ->
  wp (do_connect E c a)
     (fun r st' => match r with Ok _ => one_live st' | Raise _ => quiet st' end) st.
Proof.
  intros Hq. unfold do_connect. apply wp_with_ssh.
  destruct st as [s tr]. cbn [srv]. destruct (ssh_client s) as [h|] eqn:Hc.
  - apply wp_extern. intros [[]|e] _.
    + apply connect_ok_one_live; assumption.
    + apply connect_raise_quiet; assumption.
  - exact Hq.
Qed.

(** The [try] block of [_connect_ssh]: when it returns, the server is
    connected and its transport is the only live one. *)
Lemma connect_body_spec E a b c d e f st :
  session_inv st ->
  wp (connect_body E a b c d e f)
     (fun r st' =>
        match r with
        | Ok _ => one_live st' /\ Connected (srv st')
        | Raise _ => session_inv st'
        end) st.
Proof.
  intros Hi. unfold connect_body.
  apply wp_bind, wp_get_ssh_client, wp_bind.
  apply wp_mono with (Q := fun r st' =>
    match r with Ok _ => quiet st' | Raise _ => session_inv st' end).
  { destruct (ssh_client (srv st)) eqn:Hc; cbn [truthy_obj].
    - apply wp_bind. eapply wp_mono; [apply disconnect_spec; exact Hi|].
      intros [m|x] st' H; [|exact H]. apply wp_ret. apply H.
    - apply wp_ret. apply none_held_quiet; assumption. }
  clear st Hi. intros [[]|x] st Hq; [|exact Hq]. unfold establish.
  apply wp_bind, wp_neutral; [apply neutral_get_env_ssh_config|].
  intros [env_config|x] st1 Hs1;
    [|exact (quiet_session_inv (stable_quiet Hs1 Hq))].
  apply wp_bind, wp_neutral; [apply neutral_validate_config|].
  intros [[]|x] st2 Hs2;
    [|exact (quiet_session_inv (stable_quiet Hs2 (stable_quiet Hs1 Hq)))].
  pose proof (stable_quiet Hs2 (stable_quiet Hs1 Hq)) as Hq2.
  clear st st1 Hq Hs1 Hs2. destruct st2 as [s tr].
  apply wp_bind, wp_now, wp_bind, wp_extern. intros r ->.
  apply wp_bind. unfold wp at 1. cbn [set_ssh_client fst snd srv trace].
  apply wp_bind, wp_with_ssh. cbn [srv ssh_client]. apply wp_extern. intros r ->.
  match goal with |- wp _ _ ?st => assert (Hq4 : quiet st); [|revert Hq4; generalize st] end.
  { eapply stable_quiet; [apply neutral_step_stable; reflexivity|].
    eapply quiet_any_server.
    eapply stable_quiet; [|exact Hq2]. apply neutral_step_stable. reflexivity. }
  clear Hq2 s tr. intros st4 Hq4. apply wp_bind.
  apply wp_mono with (Q := fun r st' =>
    match r with Ok _ => one_live st' | Raise _ => session_inv st' end).
  { assert (Hdo : forall a0 st0, quiet st0 ->
      wp (do_connect E (merge_config a b c d e f env_config) a0)
         (fun r st' =>
            match r with Ok _ => one_live st' | Raise _ => session_inv st' end)
         st0).
    { intros a0 st0 H0. eapply wp_mono; [apply do_connect_spec; exact H0|].
      intros [u|x] st' H; [exact H | exact (quiet_session_inv H)]. }
    destruct (truthy_str _); [|apply Hdo; exact Hq4].
    apply wp_bind, wp_neutral; [apply neutral_load_private_key|].
    intros [[k|]|x] st' Hs; pose proof (stable_quiet Hs Hq4) as Hq5.
    - apply Hdo. exact Hq5.
    - exact (quiet_session_inv Hq5).
    - exact (quiet_session_inv Hq5). }
  clear Hq4 st4. intros [u|x] [s5 tr5] H5; [|exact H5].
  apply wp_bind, wp_with_ssh. cbn [srv].
  destruct (ssh_client s5) as [h5|] eqn:Hc5;
    [|exact (one_live_session_inv H5)].
  apply wp_bind, wp_now, wp_bind, wp_extern. intros r _.
  assert (H6 : forall s6,
             ssh_client s6 = ssh_client s5 ->
             one_live (St s6 (Ev (OpenSftp h5 (List.length tr5))
                                 match r with Ok _ => None | Raise x => Some x end
                                 :: tr5))).
  { intros s6 Hs6. eapply stable_one_live; [|exact H5].
    eapply stable_trans; [|apply same_client_stable; exact Hs6].
    apply neutral_step_stable. reflexivity. }
  destruct r as [[]|x]; [|exact (one_live_session_inv (H6 s5 eq_refl))].
  unfold_m. simpl. split; [apply H6; reflexivity|].
  split; [exists h5; exact Hc5 | eexists; reflexivity].
Qed.

(** [_connect_ssh] keeps the invariant: it returns connected with exactly one
    live transport, or raises with nothing held and nothing live. *)
Lemma connect_spec E a b c d e f st :
  session_inv st ->
  wp (_connect_ssh E a b c d e f)
     (fun r st' =>
        match r with
        | Ok _ => one_live st' /\ Connected (srv st')
        | Raise _ => quiet st' /\ Disconnected (srv st')
        end) st.
Proof.
  intros Hi. unfold _connect_ssh. apply wp_try.
  eapply wp_mono; [apply connect_body_spec; exact Hi|].
  intros [m|x] st' H; [exact H|].
  eapply wp_mono; [apply cleanup_spec; exact H|].
  intros r st'' [-> H']. exact H'.
Qed.

Lemma run_op_session_inv E o st :
  session_inv st -> session_inv (snd (run_op E o st)).
Proof.
  intros Hi. destruct o; cbn [run_op].
  - pose proof (connect_spec E host_ port_ username_ password_ private_key_ passphrase_ Hi) as H.
    unfold wp in H. destruct (fst _); [apply H | apply H].
  - pose proof (disconnect_spec E Hi) as H.
    unfold wp in H. destruct (fst _); [apply H | apply H].
  - eapply stable_session_inv; [apply neutral_execute_command | exact Hi].
  - eapply stable_session_inv; [apply neutral_upload_file | exact Hi].
  - eapply stable_session_inv; [apply neutral_download_file | exact Hi].
  - eapply stable_session_inv; [apply neutral_get_system_info | exact Hi].
Qed.

Lemma init_session_inv : session_inv init_state.
Proof. split; [reflexivity | left; reflexivity]. Qed.



(** ** The guards of the four borrowing operations *)

(** C6. From the Disconnected state (no transport, no file-transfer channel
    held), [_execute_command], [_upload_file], [_download_file] and
    [_get_system_info] each raise the not-connected error (an [Exception]
    with the message of the guard) and do nothing else: the attributes and
    the trace of outside calls are those of the state they started from. *)
Theorem C6_not_connected :
  forall E cfg tr command cwd local_path remote_path,
    let st := St {| ssh_client := None; sftp_client := None; config := cfg |} tr in
    _execute_command E command cwd st
      = (Raise (Exc PyException (lit "Not connected to SSH. Please connect first.")), st) /\
    _upload_file E local_path remote_path st
      = (Raise (Exc PyException (lit "SSHに接続されていません。まず接続してください。")), st) /\
    _download_file E remote_path local_path st
      = (Raise (Exc PyException (lit "SSHに接続されていません。まず接続してください。")), st) /\
    _get_system_info E st
      = (Raise (Exc PyException (lit "Not connected to SSH. Please connect first.")), st).
Proof.
  intros. repeat split.
Qed.

(** ** [_execute_command] *)

Lemma app_cons_eq {A} (x : A) l new tr : l = new ++ tr -> x :: l = (x :: new) ++ tr.
Proof. intros ->. reflexivity. Qed.

(** Splits a trace into the events that were added and the older ones. *)
Ltac find_new :=
  first [ exact (eq_refl : _ = [] ++ _)
        | apply app_cons_eq; find_new ].

(** The first call [_execute_command] makes on a held transport is
    [exec_command] with the command line of lines 270-272, and it makes no
    other [exec_command]. *)
Lemma execute_dispatch E command cwd h sftp cfg tr :
  exists later r,
    trace (snd (_execute_command E command cwd
                  (St {| ssh_client := Some h; sftp_client := sftp; config := cfg |} tr)))
      = later ++ Ev (ExecCommand h (actual_command command cwd)) r :: tr /\
    existsb is_exec later = false.
Proof.
  unfold _execute_command. unfold_m. simpl.
  repeat (run_step; simpl); eexists; eexists; (split; [find_new | reflexivity]).
Qed.

(** C9. With a non-empty [cwd] the command line sent to the remote shell is
    exactly [cd {cwd} && {command}], nothing escaped; with no [cwd] (or an
    empty one) it is the command itself.  It is the only command line sent. *)
Theorem C9_dispatched_command :
  forall E command c d h sftp cfg tr,
    let st := St {| ssh_client := Some h; sftp_client := sftp; config := cfg |} tr in
    (exists later r,
       trace (snd (_execute_command E command (Some (c :: d)) st))
         = later ++ Ev (ExecCommand h (lit "cd " ++ (c :: d) ++ lit " && " ++ command)) r :: tr /\
       existsb is_exec later = false) /\
    (exists later r,
       trace (snd (_execute_command E command None st))
         = later ++ Ev (ExecCommand h command) r :: tr /\
       existsb is_exec later = false) /\
    (exists later r,
       trace (snd (_execute_command E command (Some []) st))
         = later ++ Ev (ExecCommand h command) r :: tr /\
       existsb is_exec later = false).
Proof.
  intros. repeat split.
  - exact (execute_dispatch E command (Some (c :: d)) h sftp cfg tr).
  - exact (execute_dispatch E command None h sftp cfg tr).
  - exact (execute_dispatch E command (Some []) h sftp cfg tr).
Qed.

(** What [_execute_command] does on a held transport, by the answers of the
    four calls it makes. *)
Lemma execute_cases E command cwd h sftp cfg tr :
  let st := St {| ssh_client := Some h; sftp_client := sftp; config := cfg |} tr in
  let t := List.length tr in
  match exec_command E t h (actual_command command cwd),
        stdout_read E (S t) h, stderr_read E (S (S t)) h,
        recv_exit_status E (S (S (S t))) h with
  | Ok _, Ok out, Ok err, Ok code =>
      fst (_execute_command E command cwd st)
        = Ok (format_result command code (decode_utf8_replace out)
                            (decode_utf8_replace err))
  | Raise x, _, _, _ | Ok _, Raise x, _, _ | Ok _, Ok _, Raise x, _
  | Ok _, Ok _, Ok _, Raise x =>
      fst (_execute_command E command cwd st)
        = Raise (Exc PyException (lit "Command execution failed: " ++ exc_msg x))
  end /\
  srv (snd (_execute_command E command cwd st)) = srv st.
Proof.
  unfold _execute_command. unfold_m. simpl.
  repeat (run_step; simpl); split; reflexivity.
Qed.

Lemma format_result_text command code out err :
  format_result command code out err
  = lit "Command: " ++ command ++ NL
    ++ lit "Exit Code: " ++ str_of_Z code ++ NL ++ NL
    ++ lit "STDOUT:" ++ NL ++ rstrip out ++ NL ++ NL
    ++ lit "STDERR:" ++ NL ++ rstrip err.
Proof.
  unfold format_result. cbn [join]. rewrite !shown_rstrip.
  repeat (rewrite <- ?app_assoc; cbn [app]). reflexivity.
Qed.

(** C7. On a held transport, when the four calls of the execution return,
    [_execute_command] returns normally whatever the exit status is, zero or
    not: the text carries the command, the numeric exit status and the two
    captured streams, decoded with replacement and right-stripped.  It raises
    only when one of its calls into the transport raised, and then with
    [Command execution failed: ] followed by the message of that error. *)
Theorem C7_nonzero_exit_is_a_result :
  forall E command cwd h sftp cfg tr,
    let st := St {| ssh_client := Some h; sftp_client := sftp; config := cfg |} tr in
    let t := List.length tr in
    (forall out err code,
       exec_command E t h (actual_command command cwd) = Ok tt ->
       stdout_read E (S t) h = Ok out ->
       stderr_read E (S (S t)) h = Ok err ->
       recv_exit_status E (S (S (S t))) h = Ok code ->
       fst (_execute_command E command cwd st)
         = Ok (lit "Command: " ++ command ++ NL
               ++ lit "Exit Code: " ++ str_of_Z code ++ NL ++ NL
               ++ lit "STDOUT:" ++ NL ++ rstrip (decode_utf8_replace out) ++ NL ++ NL
               ++ lit "STDERR:" ++ NL ++ rstrip (decode_utf8_replace err)) /\
       srv (snd (_execute_command E command cwd st)) = srv st) /\
    (forall e,
       fst (_execute_command E command cwd st) = Raise e ->
       exists c cause older,
         trace (snd (_execute_command E command cwd st))
           = Ev c (Some cause) :: older /\
         e = Exc PyException (lit "Command execution failed: " ++ exc_msg cause)).
Proof.
  intros E command cwd h sftp cfg tr st t. split.
  - intros out err code H1 H2 H3 H4.
    pose proof (execute_cases E command cwd h sftp cfg tr) as [H Hs].
    cbv zeta in H. fold t in H. rewrite H1, H2, H3, H4 in H.
    rewrite <- format_result_text. split; [exact H | exact Hs].
  - subst st. unfold _execute_command. unfold_m. simpl.
    repeat (run_step; simpl); intros x Hx; inversion Hx; subst;
      eexists; eexists; eexists; split; reflexivity.
Qed.

Lemma C7_witness :
  fst (_execute_command calm (lit "false") None connected_state)
    = Ok (lit "Command: " ++ lit "false" ++ NL
          ++ lit "Exit Code: " ++ str_of_Z 1 ++ NL ++ NL
          ++ lit "STDOUT:" ++ NL
          ++ rstrip (decode_utf8_replace [x6f; x6b; x0a]%byte) ++ NL ++ NL
          ++ lit "STDERR:" ++ NL ++ rstrip (decode_utf8_replace [])) /\
  srv (snd (_execute_command calm (lit "false") None connected_state))
    = srv connected_state.
Proof.
  pose proof (@C7_nonzero_exit_is_a_result calm (lit "false") None 1 (Some 4)
                (Some some_config) connected_trace) as H.
  cbv zeta in H. destruct H as [H _].
  apply H; vm_compute; reflexivity.
Defined.

Lemma cd_form_differs (command d : str) :
  lit "Command: " ++ command
  <> lit "Command: " ++ lit "cd " ++ d ++ lit " && " ++ command.
Proof.
  intros H. apply app_inv_head in H.
  apply (f_equal (@List.length N)) in H. rewrite !length_app in H.
  assert (0 < List.length (lit "cd ")) by (vm_compute; lia). lia.
Qed.

(** C10. When [_execute_command] returns for a call with a non-empty [cwd],
    the command line sent was [cd {cwd} && {command}], but the returned text
    opens with [Command: ] followed by the caller's own command, which is not
    the line that was sent; the rest of the text is the exit status and the
    two streams the remote answered, so the [cd] prefix is nowhere put into
    it. *)
Theorem C10_command_line_echoes_original :
  forall E command c d h sftp cfg tr text,
    let st := St {| ssh_client := Some h; sftp_client := sftp; config := cfg |} tr in
    let t := List.length tr in
    fst (_execute_command E command (Some (c :: d)) st) = Ok text ->
    exists out err code,
      In (Ev (ExecCommand h (lit "cd " ++ (c :: d) ++ lit " && " ++ command)) None)
         (trace (snd (_execute_command E command (Some (c :: d)) st))) /\
      stdout_read E (S t) h = Ok out /\
      stderr_read E (S (S t)) h = Ok err /\
      recv_exit_status E (S (S (S t))) h = Ok code /\
      text = lit "Command: " ++ command ++ NL
             ++ lit "Exit Code: " ++ str_of_Z code ++ NL ++ NL
             ++ lit "STDOUT:" ++ NL ++ rstrip (decode_utf8_replace out) ++ NL ++ NL
             ++ lit "STDERR:" ++ NL ++ rstrip (decode_utf8_replace err) /\
      lit "Command: " ++ command
      <> lit "Command: " ++ lit "cd " ++ (c :: d) ++ lit " && " ++ command.
Proof.
  intros E command c d h sftp cfg tr text st t. subst st t.
  unfold _execute_command. unfold_m. simpl.
  repeat (run_step; simpl); intros Hx; inversion Hx; subst.
  exists a0, a1, a2. rewrite format_result_text.
  repeat split; auto. exact (@cd_form_differs command (c :: d)).
Qed.

Lemma C10_witness :
  exists out err code,
    In (Ev (ExecCommand 1 (lit "cd " ++ (47%N :: lit "tmp") ++ lit " && " ++ lit "ls")) None)
       (trace (snd (_execute_command calm (lit "ls") (Some (47%N :: lit "tmp"))
                      connected_state))) /\
    stdout_read calm (S (List.length connected_trace)) 1 = Ok out /\
    stderr_read calm (S (S (List.length connected_trace))) 1 = Ok err /\
    recv_exit_status calm (S (S (S (List.length connected_trace)))) 1 = Ok code /\
    format_result (lit "ls") 1 (decode_utf8_replace [x6f; x6b; x0a]%byte)
                  (decode_utf8_replace [])
    = lit "Command: " ++ lit "ls" ++ NL
      ++ lit "Exit Code: " ++ str_of_Z code ++ NL ++ NL
      ++ lit "STDOUT:" ++ NL ++ rstrip (decode_utf8_replace out) ++ NL ++ NL
      ++ lit "STDERR:" ++ NL ++ rstrip (decode_utf8_replace err) /\
    lit "Command: " ++ lit "ls"
    <> lit "Command: " ++ lit "cd " ++ (47%N :: lit "tmp") ++ lit " && " ++ lit "ls".
Proof.
  pose proof (@C10_command_line_echoes_original calm (lit "ls") 47%N (lit "tmp")
                1 (Some 4) (Some some_config) connected_trace
                (format_result (lit "ls") 1
                   (decode_utf8_replace [x6f; x6b; x0a]%byte)
                   (decode_utf8_replace []))) as H.
  cbv zeta in H. apply H. vm_compute. reflexivity.
Defined.


(** ** [_disconnect_ssh] *)

(** The close calls a disconnect owes, oldest first: the file-transfer
    channel, then the transport. *)
Lemma disconnect_returns E ssh sftp cfg tr :
  let st := St {| ssh_client := ssh; sftp_client := sftp; config := cfg |} tr in
  forall m, fst (_disconnect_ssh E st) = Ok m ->
    m = lit "Successfully disconnected from SSH" /\
    srv (snd (_disconnect_ssh E st)) = init_server /\
    exists new,
      trace (snd (_disconnect_ssh E st)) = new ++ tr /\
      calls new
      = match sftp with Some c => [SftpClose c] | None => [] end
        ++ match ssh with Some h => [ClientClose h] | None => [] end /\
      forallb (fun ev => negb (truthy_obj (ev_raised ev))) new = true.
Proof.
  unfold _disconnect_ssh, disconnect_body. unfold_m.
  destruct ssh, sftp; simpl; repeat (run_step; simpl);
    intros m Hm; inversion Hm; subst;
    (split; [reflexivity|]); (split; [reflexivity|]);
    eexists; (split; [find_new|]); split; reflexivity.
Qed.

(** The claim as the specification words it fails: a close that raises is not
    suppressed, and the handles stay in place. *)
Lemma C3_close_error_not_suppressed :
  fst (_disconnect_ssh broken_sftp connected_state)
    = Raise (Exc PyException (lit "Disconnect failed: Socket is closed")) /\
  ~ Disconnected (srv (snd (_disconnect_ssh broken_sftp connected_state))).
Proof.
  split; [vm_compute; reflexivity|]. intros [H _]. vm_compute in H. discriminate H.
Qed.

(** C3 (amended). From the Disconnected state [_disconnect_ssh] returns at
    once, making no call.  From any state, when it returns it has closed the
    file-transfer channel (if held) and then the transport (if held), no
    close raised, and both handles and the recorded config are cleared, so a
    second call returns at once.  A close that raises is not suppressed: the
    caller gets [Disconnect failed: ] followed by the message of the error
    the close raised, and it raises in no other case. *)
Theorem C3_disconnect :
  forall E ssh sftp cfg tr,
    let st := St {| ssh_client := ssh; sftp_client := sftp; config := cfg |} tr in
    (ssh = None -> sftp = None ->
     _disconnect_ssh E st
       = (Ok (lit "Successfully disconnected from SSH"), St init_server tr)) /\
    (forall m, fst (_disconnect_ssh E st) = Ok m ->
       m = lit "Successfully disconnected from SSH" /\
       srv (snd (_disconnect_ssh E st)) = init_server /\
       (exists new,
          trace (snd (_disconnect_ssh E st)) = new ++ tr /\
          calls new
          = match sftp with Some c => [SftpClose c] | None => [] end
            ++ match ssh with Some h => [ClientClose h] | None => [] end /\
          forallb (fun ev => negb (truthy_obj (ev_raised ev))) new = true) /\
       _disconnect_ssh E (snd (_disconnect_ssh E st))
         = (Ok (lit "Successfully disconnected from SSH"),
            snd (_disconnect_ssh E st))) /\
    (forall e, fst (_disconnect_ssh E st) = Raise e ->
       exists c cause older,
         trace (snd (_disconnect_ssh E st)) = Ev c (Some cause) :: older /\
         (Some c = option_map SftpClose sftp \/ Some c = option_map ClientClose ssh) /\
         e = Exc PyException (lit "Disconnect failed: " ++ exc_msg cause)).
Proof.
  intros E ssh sftp cfg tr st. split; [|split].
  - intros -> ->. reflexivity.
  - intros m Hm. destruct (@disconnect_returns E ssh sftp cfg tr m Hm) as (H1 & H2 & H3).
    split; [exact H1|]. split; [exact H2|]. split; [exact H3|].
    fold st in H2. destruct (snd (_disconnect_ssh E st)) as [s' tr'].
    simpl in H2. subst s'. reflexivity.
  - subst st. unfold _disconnect_ssh, disconnect_body. unfold_m.
    destruct ssh, sftp; simpl; repeat (run_step; simpl);
      intros x Hx; inversion Hx; subst;
      eexists; eexists; eexists; (split; [reflexivity|]); split; auto.
Qed.

Lemma C3_witness :
  let st := snd (_disconnect_ssh calm connected_state) in
  (lit "Successfully disconnected from SSH" = lit "Successfully disconnected from SSH" /\
   srv st = init_server /\
   (exists new,
      trace st = new ++ connected_trace /\
      calls new = [SftpClose 4] ++ [ClientClose 1] /\
      forallb (fun ev => negb (truthy_obj (ev_raised ev))) new = true) /\
   _disconnect_ssh calm st = (Ok (lit "Successfully disconnected from SSH"), st)) /\
  (exists c cause older,
     trace (snd (_disconnect_ssh broken_sftp connected_state))
       = Ev c (Some cause) :: older /\
     (Some c = option_map SftpClose (Some 4) \/
      Some c = option_map ClientClose (Some 1)) /\
     Exc PyException (lit "Disconnect failed: " ++ exc_msg boom)
       = Exc PyException (lit "Disconnect failed: " ++ exc_msg cause)).
Proof.
  pose proof (@C3_disconnect calm (Some 1) (Some 4) (Some some_config)
                connected_trace) as Hc.
  pose proof (@C3_disconnect broken_sftp (Some 1) (Some 4) (Some some_config)
                connected_trace) as Hb.
  cbv zeta in Hc, Hb. destruct Hc as (_ & Hc & _). destruct Hb as (_ & _ & Hb).
  split.
  - apply Hc. vm_compute. reflexivity.
  - apply Hb. vm_compute. reflexivity.
Defined.


(** ** [_upload_file] *)

(** The claim as the specification words it fails: the local file exists, but
    the remote path has no directory part, and no [mkdir] is attempted. *)
Lemma C8_no_mkdir_without_directory_part :
  os_path_exists calm (List.length connected_trace) (lit "/tmp/a.txt") = true /\
  fst (_upload_file calm (lit "/tmp/a.txt") (lit "a.txt") connected_state)
    = Ok (lit "Successfully uploaded /tmp/a.txt to a.txt") /\
  existsb is_mkdir
    (trace (snd (_upload_file calm (lit "/tmp/a.txt") (lit "a.txt") connected_state)))
    = false.
Proof. vm_compute. repeat split. Qed.

(** C8 (amended). When the local path does not exist, [_upload_file] fails
    with the [FileNotFoundError] [Local file not found: {local_path}], which
    reaches the caller as [File upload failed: Local file not found:
    {local_path}], after the existence check alone: no [mkdir], no transfer.
    When the local file exists and the remote path has a directory part, the
    next call is one [mkdir] of that directory, and no other [mkdir] is
    made; when it returns, the transfer follows it; when it raises an error
    that is not a [FileExistsError], the upload ends with
    [File upload failed: ] and that error's message, and no transfer is
    made.  When the remote path has no directory part, no [mkdir] is
    attempted and the transfer follows the existence check. *)
Theorem C8_upload :
  forall E local_path remote_path ssh s cfg tr,
    let st := St {| ssh_client := ssh; sftp_client := Some s; config := cfg |} tr in
    let t := List.length tr in
    let run := _upload_file E local_path remote_path st in
    let checked := Ev (PathExists local_path) None in
    (os_path_exists E t local_path = false ->
     run = (Raise (Exc PyException
                     (lit "File upload failed: " ++ lit "Local file not found: " ++ local_path)),
            St (srv st) (checked :: tr))) /\
    (os_path_exists E t local_path = true ->
     dirname remote_path <> [] ->
     (exists later,
        trace (snd run)
          = later
            ++ [ Ev (SftpMkdir s (dirname remote_path))
                    (match sftp_mkdir E (S t) s (dirname remote_path) with
                     | Ok _ => None
                     | Raise e => Some e
                     end);
                 checked ] ++ tr /\
        existsb is_mkdir later = false) /\
     (sftp_mkdir E (S t) s (dirname remote_path) = Ok tt ->
      exists r',
        trace (snd run)
          = [ Ev (SftpPut s local_path remote_path) r';
              Ev (SftpMkdir s (dirname remote_path)) None;
              checked ] ++ tr) /\
     (forall e,
        sftp_mkdir E (S t) s (dirname remote_path) = Raise e ->
        is_FileExistsError e = false ->
        run = (Raise (Exc PyException (lit "File upload failed: " ++ exc_msg e)),
               St (srv st)
                  ([Ev (SftpMkdir s (dirname remote_path)) (Some e); checked] ++ tr)))) /\
    (os_path_exists E t local_path = true ->
     dirname remote_path = [] ->
     exists r',
       trace (snd run) = [Ev (SftpPut s local_path remote_path) r'; checked] ++ tr).
Proof.
  intros E local_path remote_path ssh s cfg tr st t run checked.
  subst st t run checked.
  unfold _upload_file. unfold_m. cbn [srv trace sftp_client truthy_obj negb].
  split; [|split].
  - intros ->. reflexivity.
  - intros -> Hd. destruct (dirname remote_path) as [|c d] eqn:Hdir; [congruence|].
    cbn [nonempty negb fst snd srv trace sftp_client List.length].
    destruct (sftp_mkdir E (S (List.length tr)) s (c :: d)) as [[]|e] eqn:Hm.
    + cbn [fst snd srv trace sftp_client List.length].
      destruct (sftp_put E _ s local_path remote_path); cbn [fst snd trace].
      all: split; [|split; [intros _; eexists; reflexivity | intros e' He'; discriminate He']].
      all: eexists [_]; split; reflexivity.
    + destruct (is_FileExistsError e) eqn:Hf;
        cbn [fst snd srv trace sftp_client List.length].
      * destruct (sftp_put E _ s local_path remote_path); cbn [fst snd trace].
        all: split; [|split; [discriminate | intros e' He' Hf'; injection He' as <-; congruence]].
        all: eexists [_]; split; reflexivity.
      * split; [|split; [discriminate | intros e' He' _; injection He' as <-; reflexivity]].
        exists []; split; reflexivity.
  - intros -> ->. cbn [nonempty negb fst snd srv trace sftp_client List.length].
    destruct (sftp_put E _ s local_path remote_path); eexists; reflexivity.
Qed.

Lemma C8_witness :
  let denied := Exc (OtherError "PermissionError") (lit "Permission denied") in
  _upload_file empty_disk (lit "/no/such/file") (lit "/srv/a.txt") connected_state
    = (Raise (Exc PyException
                (lit "File upload failed: " ++ lit "Local file not found: "
                   ++ lit "/no/such/file")),
       St (srv connected_state)
          (Ev (PathExists (lit "/no/such/file")) None :: connected_trace)) /\
  (exists r',
     trace (snd (_upload_file calm (lit "/tmp/a.txt") (lit "/srv/a.txt")
                   connected_state))
       = [ Ev (SftpPut 4 (lit "/tmp/a.txt") (lit "/srv/a.txt")) r';
           Ev (SftpMkdir 4 (dirname (lit "/srv/a.txt"))) None;
           Ev (PathExists (lit "/tmp/a.txt")) None ] ++ connected_trace) /\
  _upload_file read_only_remote (lit "/tmp/a.txt") (lit "/srv/a.txt") connected_state
    = (Raise (Exc PyException (lit "File upload failed: " ++ exc_msg denied)),
       St (srv connected_state)
          ([ Ev (SftpMkdir 4 (dirname (lit "/srv/a.txt"))) (Some denied);
             Ev (PathExists (lit "/tmp/a.txt")) None ] ++ connected_trace)) /\
  (exists r',
     trace (snd (_upload_file calm (lit "/tmp/a.txt") (lit "a.txt") connected_state))
       = [ Ev (SftpPut 4 (lit "/tmp/a.txt") (lit "a.txt")) r';
           Ev (PathExists (lit "/tmp/a.txt")) None ] ++ connected_trace).
Proof.
  intros denied.
  pose proof (@C8_upload empty_disk (lit "/no/such/file") (lit "/srv/a.txt")
                (Some 1) 4 (Some some_config) connected_trace) as Ha.
  pose proof (@C8_upload calm (lit "/tmp/a.txt") (lit "/srv/a.txt")
                (Some 1) 4 (Some some_config) connected_trace) as Hb.
  pose proof (@C8_upload read_only_remote (lit "/tmp/a.txt") (lit "/srv/a.txt")
                (Some 1) 4 (Some some_config) connected_trace) as Hd.
  pose proof (@C8_upload calm (lit "/tmp/a.txt") (lit "a.txt")
                (Some 1) 4 (Some some_config) connected_trace) as Hc.
  cbv zeta in Ha, Hb, Hc, Hd.
  destruct Ha as (Ha & _). destruct Hb as (_ & Hb & _).
  destruct Hd as (_ & Hd & _). destruct Hc as (_ & _ & Hc).
  split; [|split; [|split]].
  - apply Ha. vm_compute. reflexivity.
  - destruct Hb as (_ & Hb & _);
      [vm_compute; reflexivity | vm_compute; discriminate |].
    apply Hb. vm_compute. reflexivity.
  - destruct Hd as (_ & _ & Hd);
      [vm_compute; reflexivity | vm_compute; discriminate |].
    apply (Hd denied); vm_compute; reflexivity.
  - apply Hc; vm_compute; reflexivity.
Defined.

(** The handler of lines 322-323 takes [FileExistsError] and nothing else.
    When [mkdir] reports a directory that is already there with a plain
    [OSError], the upload fails and nothing is transferred. *)
Example upload_into_existing_directory :
  _upload_file existing_directory (lit "/tmp/a.txt") (lit "/srv/a.txt") connected_state
  = (Raise (Exc PyException (lit "File upload failed: Failure")),
     St (srv connected_state)
        ([ Ev (SftpMkdir 4 (lit "/srv")) (Some (Exc OSError (lit "Failure")));
           Ev (PathExists (lit "/tmp/a.txt")) None ] ++ connected_trace)).
Proof. vm_compute. reflexivity. Qed.

(** ** [_connect_ssh]: resolving the credentials *)

Lemma get_env_ok E st d :
  fst (get_env_ssh_config E st) = Ok d ->
  get_env_ssh_config E st
    = (Ok d, St (srv st) (Ev GetEnvConfig None :: trace st)).
Proof.
  unfold get_env_ssh_config, extern. cbn [fst].
  destruct (py_int E _); intros H; inversion H; subst; reflexivity.
Qed.

Ltac if_step :=
  match goal with
  | |- context [if ?X then _ else _] =>
      lazymatch X with
      | context [match _ with _ => _ end] => fail
      | context [if _ then _ else _] => fail
      | _ => destruct X eqn:?
      end
  end.

Lemma nonempty_false (s : str) : s = [] -> nonempty s = false.
Proof. intros ->. reflexivity. Qed.

(** With nothing held, a connect whose merged configuration fails a required
    field check raises after reading the environment, and makes no other
    call. *)
Lemma connect_invalid E a b c d e f cfg tr env_config x :
  let st := St {| ssh_client := None; sftp_client := None; config := cfg |} tr in
  fst (get_env_ssh_config E st) = Ok env_config ->
  validate_config (merge_config a b c d e f env_config)
                  (St (srv st) (Ev GetEnvConfig None :: tr))
    = (Raise x, St (srv st) (Ev GetEnvConfig None :: tr)) ->
  _connect_ssh E a b c d e f st
    = (Raise (Exc PyException (lit "SSH connection failed: " ++ exc_msg x)),
       St (srv st) (Ev GetEnvConfig None :: tr)).
Proof.
  intros st Hg Hv. subst st.
  unfold _connect_ssh, connect_body, establish.
  unfold try_except at 1. unfold bind at 1. cbn [get_ssh_client srv ssh_client].
  unfold bind at 1. cbn [truthy_obj ret].
  unfold bind at 1. rewrite (get_env_ok _ _ Hg). cbn [srv trace].
  unfold bind at 1. cbn [srv] in Hv. rewrite Hv. reflexivity.
Qed.

(** A connect from the Disconnected state that returns has recorded the
    merged configuration. *)
Lemma connect_records E a b c d e f cfg tr env_config :
  let st := St {| ssh_client := None; sftp_client := None; config := cfg |} tr in
  fst (get_env_ssh_config E st) = Ok env_config ->
  forall r st',
    _connect_ssh E a b c d e f st = (r, st') ->
    (exists text, r = Ok text) ->
    config (srv st') = Some (merge_config a b c d e f env_config).
Proof.
  intros st Hg r st'. subst st.
  unfold _connect_ssh, connect_body, establish.
  unfold try_except at 1. unfold bind at 1. cbn [get_ssh_client srv ssh_client].
  unfold bind at 1. cbn [truthy_obj ret].
  unfold bind at 1. rewrite (get_env_ok _ _ Hg). cbn [srv trace].
  generalize (merge_config a b c d e f env_config). intros m.
  unfold validate_config, do_connect, connect_cleanup, key_types.
  cbn [load_private_key]. unfold_m.
  destruct (private_key m) as [ktext|] eqn:Hkey; cbn [truthy_str].
  all: repeat (first [run_step | if_step];
               cbn [srv trace ssh_client sftp_client config fst snd List.length
                    truthy_obj]).
  all: intros H [text ->]; inversion H; subst; reflexivity.
Qed.

(** C5. The merged configuration takes, field by field, the explicit value
    when it is given and not empty (not zero, for the port) and the value of
    the default configuration otherwise.  A connect from the Disconnected
    state whose merged host is empty, whose merged username is empty, or
    which has neither a password nor key material raises the matching
    configuration error (as [SSH connection failed: ...]) before any client
    is created; a connect that returns has recorded the merged
    configuration. *)
Theorem C5_merge_and_validate :
  forall a b c d e f env_config,
    let m := merge_config a b c d e f env_config in
    ((forall v, a = Some v -> v <> [] -> host m = v) /\
     (a = None \/ a = Some [] -> host m = host env_config) /\
     (forall p, b = Some p -> p <> 0%Z -> port m = p) /\
     (b = None \/ b = Some 0%Z -> port m = port env_config) /\
     (forall v, c = Some v -> v <> [] -> username m = v) /\
     (c = None \/ c = Some [] -> username m = username env_config) /\
     (forall v, d = Some v -> v <> [] -> password m = Some v) /\
     (d = None \/ d = Some [] -> password m = password env_config) /\
     (forall v, e = Some v -> v <> [] -> private_key m = Some v) /\
     (e = None \/ e = Some [] -> private_key m = private_key env_config) /\
     (forall v, f = Some v -> v <> [] -> private_key_passphrase m = Some v) /\
     (f = None \/ f = Some [] ->
      private_key_passphrase m = private_key_passphrase env_config)) /\
    (forall E cfg tr,
       let st := St {| ssh_client := None; sftp_client := None; config := cfg |} tr in
       let failed (msg : string) :=
         _connect_ssh E a b c d e f st
         = (Raise (Exc PyException (lit "SSH connection failed: " ++ lit msg)),
            St (srv st) (Ev GetEnvConfig None :: tr)) in
       fst (get_env_ssh_config E st) = Ok env_config ->
       (host m = [] ->
        failed "Host is required. Provide it as parameter or set UBUNTU_SSH_HOST environment variable."%string) /\
       (host m <> [] -> username m = [] ->
        failed "Username is required. Provide it as parameter or set UBUNTU_SSH_USERNAME environment variable."%string) /\
       (host m <> [] -> username m <> [] ->
        truthy_str (password m) = false -> truthy_str (private_key m) = false ->
        failed "Either password or private key is required. Set UBUNTU_SSH_PASSWORD or UBUNTU_SSH_PRIVATE_KEY_PATH environment variable."%string) /\
       (forall text, fst (_connect_ssh E a b c d e f st) = Ok text ->
          config (srv (snd (_connect_ssh E a b c d e f st))) = Some m)).
Proof.
  intros a b c d e f env_config m. split.
  - subst m. unfold merge_config. cbn [host port username password private_key
      private_key_passphrase].
    repeat split.
    all: try (intros v -> Hv; destruct v; [congruence | reflexivity]).
    all: try (intros [-> | ->]; reflexivity).
    intros p -> Hp. unfold or_int. destruct (Z.eqb_spec p 0); [congruence | reflexivity].
  - intros E cfg tr st failed Hg. subst failed.
    assert (Hne : forall s : str, s <> [] -> nonempty s = true)
      by (intros [|? ?]; [congruence | reflexivity]).
    split; [|split; [|split]].
    + intros Hh.
      etransitivity;
        [apply (@connect_invalid E a b c d e f cfg tr env_config HOST_REQUIRED);
           [exact Hg|]
        |reflexivity].
      unfold validate_config. fold m. rewrite Hh. reflexivity.
    + intros Hh Hu.
      etransitivity;
        [apply (@connect_invalid E a b c d e f cfg tr env_config USERNAME_REQUIRED);
           [exact Hg|]
        |reflexivity].
      unfold validate_config. fold m. rewrite (Hne _ Hh), Hu. reflexivity.
    + intros Hh Hu Hp Hk.
      etransitivity;
        [apply (@connect_invalid E a b c d e f cfg tr env_config CREDENTIAL_REQUIRED);
           [exact Hg|]
        |reflexivity].
      unfold validate_config. fold m. rewrite (Hne _ Hh), (Hne _ Hu), Hp, Hk.
      reflexivity.
    + intros text Ht. fold m.
      apply (@connect_records E a b c d e f cfg tr env_config Hg _ _
               (surjective_pairing _)).
      exists text. exact Ht.
Qed.

Lemma C5_witness :
  let env0 := {| host := []; port := 22; username := []; password := None;
                 private_key := None; private_key_passphrase := None |} in
  let m := merge_config (Some (lit "10.0.0.5")) None None (Some (lit "secret"))
                        None None env0 in
  host m = lit "10.0.0.5" /\
  port m = port env0 /\
  _connect_ssh calm (Some (lit "10.0.0.5")) None None (Some (lit "secret")) None None
               (St {| ssh_client := None; sftp_client := None; config := None |} [])
  = (Raise (Exc PyException
              (lit "SSH connection failed: "
               ++ lit "Username is required. Provide it as parameter or set UBUNTU_SSH_USERNAME environment variable.")),
     St (srv (St {| ssh_client := None; sftp_client := None; config := None |} []))
        [Ev GetEnvConfig None]).
Proof.
  intros env0 m.
  pose proof (@C5_merge_and_validate (Some (lit "10.0.0.5")) None None
                (Some (lit "secret")) None None env0) as H.
  cbv zeta in H. fold m in H. destruct H as [Hm Hv].
  split; [|split].
  - apply (proj1 Hm (lit "10.0.0.5")); [reflexivity | vm_compute; discriminate].
  - apply (proj1 (proj2 (proj2 (proj2 Hm)))). left. reflexivity.
  - apply (proj1 (proj2 (Hv calm None [] ltac:(vm_compute; reflexivity)))).
    + vm_compute. discriminate.
    + vm_compute. reflexivity.
Defined.


(** ** [_connect_ssh]: key authentication *)

(** C4. A connect from the Disconnected state whose merged configuration is
    valid and carries key material hands the key text and the passphrase of
    the merged configuration to the key classes in the order RSA, Ed25519,
    ECDSA, DSS, and stops at the first one that reads them: when RSA reads
    the text it is the only class tried; when RSA raises and Ed25519 reads
    it, those two are tried, in that order; and so on.  The one [connect]
    made on the transport carries the key of the class that read the text,
    and no password.  When all four raise, all four were tried, in that
    order, no [connect] is made at all, and the call raises
    [SSH connection failed: Failed to load private key. ...].  None of this
    depends on the password, which may be anything. *)
Theorem C4_key_formats_in_order :
  forall E a b c d e f cfg tr env_config text,
    let st := St {| ssh_client := None; sftp_client := None; config := cfg |} tr in
    let m := merge_config a b c d e f env_config in
    let t := List.length tr in
    let passphrase := private_key_passphrase m in
    let run := _connect_ssh E a b c d e f st in
    let raised (fmt : KeyFormat) := (fmt, text, passphrase, false) in
    let parsed (fmt : KeyFormat) := (fmt, text, passphrase, true) in
    fst (get_env_ssh_config E st) = Ok env_config ->
    host m <> [] ->
    username m <> [] ->
    private_key m = Some text ->
    text <> [] ->
    exists new,
      trace (snd run) = new ++ tr /\
      (from_private_key E (3 + t) RSA text passphrase = Ok tt ->
       key_attempts new = [parsed RSA] /\
       connect_auths new = [AuthPkey (LoadedKey RSA text passphrase)]) /\
      (forall x1,
         from_private_key E (3 + t) RSA text passphrase = Raise x1 ->
         from_private_key E (4 + t) Ed25519 text passphrase = Ok tt ->
         key_attempts new = [raised RSA; parsed Ed25519] /\
         connect_auths new = [AuthPkey (LoadedKey Ed25519 text passphrase)]) /\
      (forall x1 x2,
         from_private_key E (3 + t) RSA text passphrase = Raise x1 ->
         from_private_key E (4 + t) Ed25519 text passphrase = Raise x2 ->
         from_private_key E (5 + t) ECDSA text passphrase = Ok tt ->
         key_attempts new = [raised RSA; raised Ed25519; parsed ECDSA] /\
         connect_auths new = [AuthPkey (LoadedKey ECDSA text passphrase)]) /\
      (forall x1 x2 x3,
         from_private_key E (3 + t) RSA text passphrase = Raise x1 ->
         from_private_key E (4 + t) Ed25519 text passphrase = Raise x2 ->
         from_private_key E (5 + t) ECDSA text passphrase = Raise x3 ->
         from_private_key E (6 + t) DSS text passphrase = Ok tt ->
         key_attempts new = [raised RSA; raised Ed25519; raised ECDSA; parsed DSS] /\
         connect_auths new = [AuthPkey (LoadedKey DSS text passphrase)]) /\
      (forall x1 x2 x3 x4,
         from_private_key E (3 + t) RSA text passphrase = Raise x1 ->
         from_private_key E (4 + t) Ed25519 text passphrase = Raise x2 ->
         from_private_key E (5 + t) ECDSA text passphrase = Raise x3 ->
         from_private_key E (6 + t) DSS text passphrase = Raise x4 ->
         key_attempts new = [raised RSA; raised Ed25519; raised ECDSA; raised DSS] /\
         connect_auths new = [] /\
         run = (Raise (Exc PyException
                         (lit "SSH connection failed: "
                          ++ lit "Failed to load private key. Unsupported format or incorrect passphrase.")),
                St {| ssh_client := None; sftp_client := None; config := cfg |}
                   (new ++ tr))).
Proof.
  intros E a b c d e f cfg tr env_config text st m t passphrase run raised parsed
         Hg Hh Hu Hk Ht.
  subst t passphrase raised parsed.
  remember run as r eqn:Hrun. subst run. revert Hrun. subst st.
  unfold _connect_ssh, connect_body, establish.
  unfold try_except at 1. unfold bind at 1. cbn [get_ssh_client srv ssh_client].
  unfold bind at 1. cbn [truthy_obj ret].
  unfold bind at 1. rewrite (get_env_ok _ _ Hg). cbn [srv trace].
  fold m. clearbody m. unfold validate_config.
  assert (Hh' : nonempty (host m) = true)
    by (destruct (host m); [congruence | reflexivity]).
  assert (Hu' : nonempty (username m) = true)
    by (destruct (username m); [congruence | reflexivity]).
  assert (Ht' : nonempty text = true)
    by (destruct text; [congruence | reflexivity]).
  rewrite Hh', Hu', Hk. cbn [truthy_str]. rewrite Ht'.
  cbn [nonempty negb andb]. rewrite andb_false_r.
  unfold do_connect, connect_cleanup, key_types. cbn [load_private_key].
  unfold_m. cbn [srv trace ssh_client sftp_client config fst snd List.length truthy_obj].
  repeat (run_step; cbn [srv trace ssh_client sftp_client config fst snd List.length truthy_obj]).
  all: intros ->; cbn [fst snd trace Nat.add].
  all: eexists; (split; [find_new|]).
  all: repeat (split || intro); first [congruence | reflexivity].
Qed.

Lemma C4_witness :
  (exists new,
     trace (snd (_connect_ssh ed25519_only (Some (lit "10.0.0.5")) None
                   (Some (lit "ubuntu")) (Some (lit "secret")) (Some (lit "KEY")) None
                   (St {| ssh_client := None; sftp_client := None; config := None |} [])))
       = new ++ [] /\
     key_attempts new
       = [(RSA, lit "KEY", None, false); (Ed25519, lit "KEY", None, true)] /\
     connect_auths new = [AuthPkey (LoadedKey Ed25519 (lit "KEY") None)]) /\
  (exists new,
     trace (snd (_connect_ssh no_key_parses (Some (lit "10.0.0.5")) None
                   (Some (lit "ubuntu")) (Some (lit "secret")) (Some (lit "KEY"))
                   (Some (lit "hunter2"))
                   (St {| ssh_client := None; sftp_client := None; config := None |} [])))
       = new ++ [] /\
     key_attempts new
       = [(RSA, lit "KEY", Some (lit "hunter2"), false);
          (Ed25519, lit "KEY", Some (lit "hunter2"), false);
          (ECDSA, lit "KEY", Some (lit "hunter2"), false);
          (DSS, lit "KEY", Some (lit "hunter2"), false)] /\
     connect_auths new = [] /\
     _connect_ssh no_key_parses (Some (lit "10.0.0.5")) None
                  (Some (lit "ubuntu")) (Some (lit "secret")) (Some (lit "KEY"))
                  (Some (lit "hunter2"))
                  (St {| ssh_client := None; sftp_client := None; config := None |} [])
       = (Raise (Exc PyException
                   (lit "SSH connection failed: "
                    ++ lit "Failed to load private key. Unsupported format or incorrect passphrase.")),
          St {| ssh_client := None; sftp_client := None; config := None |}
             (new ++ []))).
Proof.
  pose (env0 := {| host := []; port := 22%Z; username := []; password := None;
                   private_key := None; private_key_passphrase := None |}).
  pose (unreadable := Exc SSHException (lit "not a valid private key file")).
  split.
  - destruct (@C4_key_formats_in_order ed25519_only (Some (lit "10.0.0.5")) None
                (Some (lit "ubuntu")) (Some (lit "secret")) (Some (lit "KEY")) None
                None [] env0 (lit "KEY"))
      as (new & Hnew & _ & Hed & _).
    + vm_compute. reflexivity.
    + vm_compute. discriminate.
    + vm_compute. discriminate.
    + vm_compute. reflexivity.
    + vm_compute. discriminate.
    + exists new. split; [exact Hnew|].
      apply (Hed unreadable); vm_compute; reflexivity.
  - destruct (@C4_key_formats_in_order no_key_parses (Some (lit "10.0.0.5")) None
                (Some (lit "ubuntu")) (Some (lit "secret")) (Some (lit "KEY"))
                (Some (lit "hunter2")) None [] env0 (lit "KEY"))
      as (new & Hnew & _ & _ & _ & _ & Hnone).
    + vm_compute. reflexivity.
    + vm_compute. discriminate.
    + vm_compute. discriminate.
    + vm_compute. reflexivity.
    + vm_compute. discriminate.
    + exists new. split; [exact Hnew|].
      apply (Hnone unreadable unreadable unreadable unreadable); vm_compute; reflexivity.
Defined.

(** The run of the first witness: RSA is tried and raises, Ed25519 reads the
    key, ECDSA and DSS are never tried, and the password is not used. *)
Example ed25519_key_run :
  let st' := snd (_connect_ssh ed25519_only (Some (lit "10.0.0.5")) None
                    (Some (lit "ubuntu")) (Some (lit "secret")) (Some (lit "KEY")) None
                    init_state) in
  key_attempts (trace st')
    = [(RSA, lit "KEY", None, false); (Ed25519, lit "KEY", None, true)] /\
  connect_auths (trace st') = [AuthPkey (LoadedKey Ed25519 (lit "KEY") None)].
Proof. vm_compute. split; reflexivity. Qed.

(** ** Computations only append to the trace *)

Section Extends.

Context {A B : Type}.

Lemma extends_ret (a : A) : extends_trace (ret a).
Proof. intros st. exists []. reflexivity. Qed.

Lemma extends_raise (e : exc) : extends_trace (@raise A e).
Proof. intros st. exists []. reflexivity. Qed.





End Extends.





(** ** [_connect_ssh]: failure and reconnection *)

(** What the [except] block does, whatever the closes answer: it tries to
    close the transport, then the file-transfer channel, drops both and
    raises with the prefixed message. *)
Lemma cleanup_run E e st :
  exists closes,
    connect_cleanup E e st
      = (Raise (Exc PyException (lit "SSH connection failed: " ++ exc_msg e)),
         St {| ssh_client := None; sftp_client := None; config := config (srv st) |}
            (closes ++ trace st)) /\
    calls closes
      = match ssh_client (srv st) with Some h => [ClientClose h] | None => [] end
        ++ match sftp_client (srv st) with Some s => [SftpClose s] | None => [] end.
Proof.
  destruct st as [[ssh sftp cfg] tr]. unfold connect_cleanup. unfold_m.
  destruct ssh, sftp; simpl; repeat (run_step; simpl).
  all: eexists; split; [apply f_equal, f_equal; find_new | reflexivity].
Qed.

(** The claim as the specification words it fails: the error the caller gets
    is not the error that made the connect fail.  Here the remote rejects the
    password with an [AuthenticationException]; the caller gets an
    [Exception] with another message. *)
Lemma C1_error_is_replaced :
  exists cause e,
    fst (connect_body rejecting (Some (lit "10.0.0.5")) None (Some (lit "ubuntu"))
           (Some (lit "secret")) None None init_state) = Raise cause /\
    fst (_connect_ssh rejecting (Some (lit "10.0.0.5")) None (Some (lit "ubuntu"))
           (Some (lit "secret")) None None init_state) = Raise e /\
    e <> cause.
Proof.
  exists (Exc AuthenticationException (lit "Authentication failed.")).
  exists (Exc PyException (lit "SSH connection failed: Authentication failed.")).
  split; [vm_compute; reflexivity|]. split; [vm_compute; reflexivity|].
  discriminate.
Qed.

(** C1 (amended). A failing step is not swallowed: whenever the [try] block
    of [_connect_ssh] raises, the call raises a new [Exception] whose message
    is [SSH connection failed: ] followed by the message of the error that
    made the step fail; before that, [close] has been called on the transport
    and on the file-transfer channel held at that point, both handles are
    cleared (the Disconnected state), and no transport is left live.  The
    call raises in no other case.  Step by step, from the Disconnected
    state: an environment that cannot be read, a configuration without
    credentials, a [connect] that raises (the transport cannot be opened, or
    the remote rejects the credentials) and an [open_sftp] that raises each
    make the call raise that way, and the client made by then is closed. *)
Theorem C1_connect_failure_rolls_back :
  forall E a b c d e f,
    let failed (cause : exc) : exc :=
      Exc PyException (lit "SSH connection failed: " ++ exc_msg cause) in
    (forall st cause st1,
       connect_body E a b c d e f st = (Raise cause, st1) ->
       exists closes,
         _connect_ssh E a b c d e f st
           = (Raise (failed cause),
              St {| ssh_client := None; sftp_client := None;
                    config := config (srv st1) |}
                 (closes ++ trace st1)) /\
         calls closes
           = match ssh_client (srv st1) with Some h => [ClientClose h] | None => [] end
             ++ match sftp_client (srv st1) with Some s => [SftpClose s] | None => [] end /\
         (session_inv st -> live_transports (closes ++ trace st1) = [])) /\
    (forall st x,
       fst (_connect_ssh E a b c d e f st) = Raise x ->
       exists cause st1, connect_body E a b c d e f st = (Raise cause, st1)) /\
    (forall cfg tr,
       let st := St {| ssh_client := None; sftp_client := None; config := cfg |} tr in
       let t := List.length tr in
       let run := _connect_ssh E a b c d e f st in
       let rolled_back (calls_made : list Event) : State :=
         St {| ssh_client := None; sftp_client := None; config := cfg |}
            (calls_made ++ tr) in
       (forall x,
          fst (get_env_ssh_config E st) = Raise x ->
          run = (Raise (failed x), rolled_back [Ev GetEnvConfig (Some x)])) /\
       (forall env_config,
          let m := merge_config a b c d e f env_config in
          fst (get_env_ssh_config E st) = Ok env_config ->
          host m <> [] ->
          username m <> [] ->
          truthy_str (private_key m) = false ->
          (truthy_str (password m) = false ->
           run = (Raise (failed CREDENTIAL_REQUIRED),
                  rolled_back [Ev GetEnvConfig None])) /\
          (forall x,
             truthy_str (password m) = true ->
             client_connect E (3 + t) (S t) (host m) (port m) (username m)
                            (AuthPassword (password m)) = Raise x ->
             exists r,
               run = (Raise (failed x),
                      rolled_back
                        [ Ev (ClientClose (S t)) r;
                          Ev (ClientConnect (S t) (host m) (port m) (username m)
                                            (AuthPassword (password m)) 30) (Some x);
                          Ev (SetMissingHostKeyPolicy (S t)) None;
                          Ev (NewSSHClient (S t)) None;
                          Ev GetEnvConfig None ])) /\
          (forall x,
             truthy_str (password m) = true ->
             client_connect E (3 + t) (S t) (host m) (port m) (username m)
                            (AuthPassword (password m)) = Ok tt ->
             open_sftp E (4 + t) (S t) = Raise x ->
             exists r,
               run = (Raise (failed x),
                      rolled_back
                        [ Ev (ClientClose (S t)) r;
                          Ev (OpenSftp (S t) (4 + t)) (Some x);
                          Ev (ClientConnect (S t) (host m) (port m) (username m)
                                            (AuthPassword (password m)) 30) None;
                          Ev (SetMissingHostKeyPolicy (S t)) None;
                          Ev (NewSSHClient (S t)) None;
                          Ev GetEnvConfig None ])))).
Proof.
  intros E a b c d e f failed. subst failed. split; [|split].
  - intros st cause st1 Hbody.
    pose proof (fun Hi => @connect_spec E a b c d e f st Hi) as Hspec.
    unfold wp in Hspec. revert Hspec. unfold _connect_ssh, try_except.
    rewrite Hbody.
    destruct (cleanup_run E cause st1) as [closes [Hrun Hcalls]].
    rewrite Hrun. cbn [fst snd]. intros Hspec.
    exists closes. split; [reflexivity|]. split; [exact Hcalls|].
    intros Hi. apply (Hspec Hi).
  - intros st x. unfold _connect_ssh, try_except.
    destruct (connect_body E a b c d e f st) as [[text|cause] st1].
    + cbn [fst]. discriminate.
    + intros _. exists cause, st1. reflexivity.
  - intros cfg tr st t run rolled_back. subst t rolled_back.
    remember run as r eqn:Hrun. subst run. revert Hrun. subst st.
    unfold _connect_ssh, connect_body, establish.
    unfold try_except at 1. unfold bind at 1. cbn [get_ssh_client srv ssh_client].
    unfold bind at 1. cbn [truthy_obj ret].
    unfold bind at 1. intros Hrun. split.
    + intros x Hx. revert Hrun Hx.
      unfold get_env_ssh_config, extern. cbn [fst srv trace].
      destruct (py_int E _) as [p|y]; [discriminate|].
      intros -> Hx. injection Hx as <-. reflexivity.
    + intros env_config Hg Hh Hu Hk. revert Hrun.
      rewrite (get_env_ok _ _ Hg). cbn [srv trace].
      revert Hh Hu Hk. generalize (merge_config a b c d e f env_config).
      intros m Hh Hu Hk. unfold validate_config, success_msg.
      assert (Hh' : nonempty (host m) = true)
        by (destruct (host m); [congruence | reflexivity]).
      assert (Hu' : nonempty (username m) = true)
        by (destruct (username m); [congruence | reflexivity]).
      rewrite Hh', Hu', Hk. cbn [nonempty negb andb].
      destruct (truthy_str (password m)) eqn:Hp; cbn [negb andb].
      * unfold do_connect, connect_cleanup.
        unfold_m. cbn [srv trace ssh_client sftp_client config fst snd List.length truthy_obj].
        repeat (run_step; cbn [srv trace ssh_client sftp_client config fst snd List.length truthy_obj]).
        all: intros ->; cbn [Nat.add app].
        all: split; [discriminate|].
        all: split; intros x _ H1; try intros H2; first [congruence | idtac].
        all: eexists; repeat f_equal; congruence.
      * unfold connect_cleanup. unfold_m. cbn [srv trace ssh_client sftp_client truthy_obj].
        intros ->. split; [reflexivity|].
        split; intros x Hx; discriminate Hx.
Qed.

Lemma C1_witness :
  let cause := Exc AuthenticationException (lit "Authentication failed.") in
  let st1 :=
    St {| ssh_client := Some 1; sftp_client := None; config := None |}
       [ Ev (ClientConnect 1 (lit "10.0.0.5") 22 (lit "ubuntu")
                           (AuthPassword (Some (lit "secret"))) 30) (Some cause);
         Ev (SetMissingHostKeyPolicy 1) None;
         Ev (NewSSHClient 1) None;
         Ev GetEnvConfig None ] in
  let unopened := Exc SSHException (lit "Channel closed.") in
  let env0 := {| host := []; port := 22; username := []; password := None;
                 private_key := None; private_key_passphrase := None |} in
  let m := merge_config (Some (lit "10.0.0.5")) None (Some (lit "ubuntu"))
                        (Some (lit "secret")) None None env0 in
  (exists closes,
     _connect_ssh rejecting (Some (lit "10.0.0.5")) None (Some (lit "ubuntu"))
                  (Some (lit "secret")) None None init_state
       = (Raise (Exc PyException (lit "SSH connection failed: " ++ exc_msg cause)),
          St {| ssh_client := None; sftp_client := None; config := config (srv st1) |}
             (closes ++ trace st1)) /\
     calls closes
       = match ssh_client (srv st1) with Some h => [ClientClose h] | None => [] end
         ++ match sftp_client (srv st1) with Some s => [SftpClose s] | None => [] end /\
     (session_inv init_state -> live_transports (closes ++ trace st1) = [])) /\
  (exists r,
     _connect_ssh no_sftp (Some (lit "10.0.0.5")) None (Some (lit "ubuntu"))
                  (Some (lit "secret")) None None
                  (St {| ssh_client := None; sftp_client := None; config := None |} [])
       = (Raise (Exc PyException (lit "SSH connection failed: " ++ exc_msg unopened)),
          St {| ssh_client := None; sftp_client := None; config := None |}
             ([ Ev (ClientClose 1) r;
                Ev (OpenSftp 1 (4 + 0)) (Some unopened);
                Ev (ClientConnect 1 (host m) (port m) (username m)
                                  (AuthPassword (password m)) 30) None;
                Ev (SetMissingHostKeyPolicy 1) None;
                Ev (NewSSHClient 1) None;
                Ev GetEnvConfig None ] ++ []))).
Proof.
  intros cause st1 unopened env0 m.
  pose proof (@C1_connect_failure_rolls_back rejecting (Some (lit "10.0.0.5")) None
                (Some (lit "ubuntu")) (Some (lit "secret")) None None) as Hr.
  pose proof (@C1_connect_failure_rolls_back no_sftp (Some (lit "10.0.0.5")) None
                (Some (lit "ubuntu")) (Some (lit "secret")) None None) as Hs.
  cbv zeta in Hr, Hs.
  destruct Hr as (Hr & _). destruct Hs as (_ & _ & Hs).
  split.
  - apply (Hr init_state cause st1). vm_compute. reflexivity.
  - destruct (Hs None []) as (_ & Hsteps).
    destruct (Hsteps env0) as (_ & _ & Hopen).
    + vm_compute. reflexivity.
    + vm_compute. discriminate.
    + vm_compute. discriminate.
    + vm_compute. reflexivity.
    + fold m in Hopen. apply (Hopen unopened); vm_compute; reflexivity.
Defined.


(** When [establish] returns, the server holds the client it created right
    after reading the environment, and a file-transfer channel. *)
Lemma establish_client E a b c d e f st text st' :
  establish E a b c d e f st = (Ok text, st') ->
  ssh_client (srv st') = Some (S (List.length (trace st))) /\
  exists ch, sftp_client (srv st') = Some ch.
Proof.
  unfold establish. unfold bind at 1.
  destruct (get_env_ssh_config E st) as [[env_config|x] st1] eqn:Hg;
    [|discriminate].
  pose proof (get_env_ok E st (f_equal fst Hg)) as Hg'.
  rewrite Hg in Hg'. injection Hg' as ->.
  generalize (merge_config a b c d e f env_config). intros m.
  unfold validate_config, do_connect, key_types.
  cbn [load_private_key]. unfold_m.
  destruct (private_key m) as [ktext|] eqn:Hkey; cbn [truthy_str].
  all: repeat (first [run_step | if_step];
               cbn [srv trace ssh_client sftp_client config fst snd List.length
                    truthy_obj]).
  all: intros H; try discriminate H.
  all: apply (f_equal snd) in H; cbn [snd] in H; subst st'.
  all: split; [reflexivity | eexists; reflexivity].
Qed.


Lemma connected_state_inv : session_inv connected_state.
Proof. split; [reflexivity | right; reflexivity]. Qed.


(** The reconnection of the witness, run: the old session is closed, channel
    first, before the new client 8 is created, and client 8 is the only live
    transport afterwards. *)
Example reconnect_run :
  let st' := snd (_connect_ssh calm (Some (lit "10.0.0.9")) None (Some (lit "root"))
                    (Some (lit "other")) None None connected_state) in
  firstn 4 (skipn 5 (calls (trace st')))
    = [SftpClose 4; ClientClose 1; GetEnvConfig; NewSSHClient 8] /\
  srv st' = {| ssh_client := Some 8; sftp_client := Some 11;
               config := Some {| host := lit "10.0.0.9"; port := 22;
                                 username := lit "root";
                                 password := Some (lit "other");
                                 private_key := None;
                                 private_key_passphrase := None |} |} /\
  live_transports (trace st') = [8].
Proof. vm_compute. repeat split. Qed.

(** The connected state of the examples is the one a first connect reaches. *)
Example connected_state_reached :
  _connect_ssh calm (Some (lit "10.0.0.5")) None (Some (lit "ubuntu"))
               (Some (lit "secret")) None None init_state
  = (Ok (lit "Successfully connected to ubuntu@10.0.0.5:22"), connected_state).
Proof. vm_compute. reflexivity. Qed.


(* ================================================================= *)
(** * Further properties of the methods *)

(** ** The borrowing operations *)

Lemma borrows_intro {A} (m : M A) :
  (forall st, srv (snd (m st)) = srv st) ->
  (forall st, exists new,
      trace (snd (m st)) = new ++ trace st /\
      forallb (fun ev => borrow_call (ev_call ev)) new = true) ->
  borrows m.
Proof. intros H1 H2 st. split; [apply H1 | apply H2]. Qed.

Section Borrows.

Context {A B : Type}.

Lemma borrows_ret (a : A) : borrows (ret a).
Proof. intros st. split; [reflexivity|]. exists []. split; reflexivity. Qed.

Lemma borrows_raise (e : exc) : borrows (@raise A e).
Proof. intros st. split; [reflexivity|]. exists []. split; reflexivity. Qed.

Lemma borrows_bind (m : M A) (k : A -> M B) :
  borrows m -> (forall a, borrows (k a)) -> borrows (bind m k).
Proof.
  intros Hm Hk st. unfold bind. destruct (Hm st) as [S1 [n1 [T1 F1]]].
  destruct (m st) as [[a|e] st1]; cbn [snd] in *.
  - destruct (Hk a st1) as [S2 [n2 [T2 F2]]]. split; [congruence|].
    exists (n2 ++ n1). split.
    + rewrite T2, T1. apply app_assoc.
    + rewrite forallb_app, F1, F2. reflexivity.
  - split; [exact S1|]. exists n1. split; assumption.
Qed.

Lemma borrows_try (m : M A) (h : exc -> M A) :
  borrows m -> (forall e, borrows (h e)) -> borrows (try_except m h).
Proof.
  intros Hm Hh st. unfold try_except. destruct (Hm st) as [S1 [n1 [T1 F1]]].
  destruct (m st) as [[a|e] st1]; cbn [snd] in *.
  - split; [exact S1|]. exists n1. split; assumption.
  - destruct (Hh e st1) as [S2 [n2 [T2 F2]]]. split; [congruence|].
    exists (n2 ++ n1). split.
    + rewrite T2, T1. apply app_assoc.
    + rewrite forallb_app, F1, F2. reflexivity.
Qed.

Lemma borrows_extern (c : Call) (answer : nat -> result A) :
  borrow_call c = true -> borrows (extern c answer).
Proof.
  intros Hc st. split; [reflexivity|]. eexists [_]. split; [reflexivity|].
  cbn [extern forallb ev_call]. rewrite Hc. reflexivity.
Qed.

Lemma borrows_with_ssh name (k : handle -> M A) :
  (forall h, borrows (k h)) -> borrows (with_ssh name k).
Proof.
  intros Hk st. unfold with_ssh, bind, get_ssh_client. cbn [fst snd].
  destruct (ssh_client (srv st)); [apply Hk | apply borrows_raise].
Qed.

Lemma borrows_with_sftp name (k : handle -> M A) :
  (forall h, borrows (k h)) -> borrows (with_sftp name k).
Proof.
  intros Hk st. unfold with_sftp, bind, get_sftp_client. cbn [fst snd].
  destruct (sftp_client (srv st)); [apply Hk | apply borrows_raise].
Qed.

End Borrows.

Lemma borrows_get_ssh_client : borrows get_ssh_client.
Proof. intros st. split; [reflexivity|]. exists []. split; reflexivity. Qed.

Lemma borrows_get_sftp_client : borrows get_sftp_client.
Proof. intros st. split; [reflexivity|]. exists []. split; reflexivity. Qed.

Create HintDb borrows.
#[local] Hint Resolve borrows_ret borrows_raise borrows_get_ssh_client
  borrows_get_sftp_client : borrows.

Ltac borrows_tac :=
  repeat first
    [ progress intros
    | apply borrows_bind
    | apply borrows_try
    | apply borrows_with_ssh
    | apply borrows_with_sftp
    | apply borrows_extern; reflexivity
    | solve [auto with borrows]
    | match goal with
      | |- borrows (if ?b then _ else _) => destruct b
      | |- borrows (match ?x with _ => _ end) => destruct x
      end ].

Lemma borrows_system_info_loop E commands :
  forall output, borrows (system_info_loop E commands output).
Proof.
  induction commands as [|command rest IH]; intros output; simpl; borrows_tac.
Qed.

Lemma borrows_execute_command E command cwd :
  borrows (_execute_command E command cwd).
Proof. unfold _execute_command. borrows_tac. Qed.

Lemma borrows_upload_file E local_path remote_path :
  borrows (_upload_file E local_path remote_path).
Proof. unfold _upload_file. borrows_tac. Qed.

Lemma borrows_download_file E remote_path local_path :
  borrows (_download_file E remote_path local_path).
Proof. unfold _download_file. borrows_tac. Qed.

Lemma borrows_get_system_info E : borrows (_get_system_info E).
Proof. unfold _get_system_info. borrows_tac. Qed.

(** X1. In every state and whatever the outside world answers,
    [_execute_command], [_upload_file], [_download_file] and
    [_get_system_info] leave [ssh_client], [sftp_client] and [config] as
    they found them, and the only calls they make are command executions,
    stream reads, exit-status queries, local path checks, [mkdir], [put],
    [makedirs] and [get]: they never create, connect or close anything. *)
Theorem borrowing_operations_only_borrow :
  forall E,
    (forall command cwd, borrows (_execute_command E command cwd)) /\
    (forall local_path remote_path, borrows (_upload_file E local_path remote_path)) /\
    (forall remote_path local_path, borrows (_download_file E remote_path local_path)) /\
    borrows (_get_system_info E).
Proof.
  intros E. split; [|split; [|split]].
  - apply borrows_execute_command.
  - apply borrows_upload_file.
  - apply borrows_download_file.
  - apply borrows_get_system_info.
Qed.


(** ** [_get_system_info] *)

Lemma dispatched_app new tr : dispatched (new ++ tr) = dispatched tr ++ dispatched new.
Proof. unfold dispatched. rewrite rev_app_distr, flat_map_app. reflexivity. Qed.

(** The loop of [_get_system_info] on a held transport: every command gets
    its pass, in order, whatever happened to the ones before it, and each
    pass adds one section, whose body is what the world answered. *)
Lemma system_info_loop_sections E (h : handle) sftp cfg commands :
  forall output tr,
    exists bodies events,
      report_run E h (List.length tr) commands events bodies /\
      system_info_loop E commands output
        (St {| ssh_client := Some h; sftp_client := sftp; config := cfg |} tr)
      = (Ok (output
             ++ List.concat (map (fun cb => info_section (fst cb) (snd cb))
                            (combine commands bodies))),
         St {| ssh_client := Some h; sftp_client := sftp; config := cfg |}
            (rev events ++ tr)) /\
      List.length bodies = List.length commands /\
      dispatched (rev events) = commands.
Proof.
  induction commands as [|command rest IH]; intros output tr.
  - exists [], []. cbn. rewrite app_nil_r. repeat split. constructor.
  - cbn [system_info_loop]. unfold bind at 1. unfold try_except at 1.
    unfold with_ssh. unfold bind at 1. cbn [get_ssh_client srv ssh_client fst snd].
    unfold bind at 1. unfold extern at 1. cbn [srv trace].
    destruct (exec_command E (List.length tr) h command) as [[]|x] eqn:Hexec.
    + unfold bind at 1. unfold extern at 1. cbn [srv trace List.length].
      destruct (stdout_read E (S (List.length tr)) h) as [out|x] eqn:Hread.
      * cbn [ret].
        destruct (IH (output ++ lit "=== " ++ command ++ lit " ===" ++ NL
                        ++ decode_utf8_replace out ++ NL ++ NL)
                     (Ev (StdoutRead h) None :: Ev (ExecCommand h command) None :: tr))
          as (bodies & events & Hrep & Hrun & Hlen & Hd).
        exists (decode_utf8_replace out :: bodies),
               ([Ev (ExecCommand h command) None; Ev (StdoutRead h) None] ++ events).
        rewrite Hrun. split; [|split; [|split]].
        -- econstructor; [apply read_returns; eassumption | exact Hrep].
        -- cbn [combine map List.concat fst snd]. unfold info_section at 2.
           rewrite rev_app_distr. rewrite <- !app_assoc. reflexivity.
        -- cbn [List.length]. rewrite Hlen. reflexivity.
        -- rewrite rev_app_distr, dispatched_app, Hd. reflexivity.
      * cbn [ret].
        destruct (IH (output ++ lit "=== " ++ command ++ lit " ===" ++ NL
                        ++ lit "Command execution error: " ++ exc_msg x ++ NL ++ NL)
                     (Ev (StdoutRead h) (Some x) :: Ev (ExecCommand h command) None :: tr))
          as (bodies & events & Hrep & Hrun & Hlen & Hd).
        exists ((lit "Command execution error: " ++ exc_msg x) :: bodies),
               ([Ev (ExecCommand h command) None; Ev (StdoutRead h) (Some x)] ++ events).
        rewrite Hrun. split; [|split; [|split]].
        -- econstructor; [apply read_raises; eassumption | exact Hrep].
        -- cbn [combine map List.concat fst snd]. unfold info_section at 2.
           rewrite rev_app_distr. rewrite <- !app_assoc. reflexivity.
        -- cbn [List.length]. rewrite Hlen. reflexivity.
        -- rewrite rev_app_distr, dispatched_app, Hd. reflexivity.
    + cbn [ret].
      destruct (IH (output ++ lit "=== " ++ command ++ lit " ===" ++ NL
                      ++ lit "Command execution error: " ++ exc_msg x ++ NL ++ NL)
                   (Ev (ExecCommand h command) (Some x) :: tr))
        as (bodies & events & Hrep & Hrun & Hlen & Hd).
      exists ((lit "Command execution error: " ++ exc_msg x) :: bodies),
             ([Ev (ExecCommand h command) (Some x)] ++ events).
      rewrite Hrun. split; [|split; [|split]].
      * econstructor; [apply exec_raises; eassumption | exact Hrep].
      * cbn [combine map List.concat fst snd]. unfold info_section at 2.
        rewrite rev_app_distr. rewrite <- !app_assoc. reflexivity.
      * cbn [List.length]. rewrite Hlen. reflexivity.
      * rewrite rev_app_distr, dispatched_app, Hd. reflexivity.
Qed.

(** X2. On a held transport [_get_system_info] never raises.  It makes one
    pass for each of the five diagnostic commands, in the order of the list,
    whatever happened in the passes before, and returns five sections
    [=== command ===], one per command in that order.  The body of a section
    is what the world answered in that command's pass: the decoded bytes
    read from its output when [exec_command] and the read return, and the
    line [Command execution error: ] with the message of the error when one
    of the two raises (the read is not made when [exec_command] raises).
    The calls of the passes are all the calls made, and the attributes of
    the server are unchanged. *)
Theorem system_info_reports_every_command :
  forall E h sftp cfg tr,
    let st := St {| ssh_client := Some h; sftp_client := sftp; config := cfg |} tr in
    let commands := [ lit "uname -a"; lit "lsb_release -a"; lit "df -h";
                      lit "free -h"; lit "ps aux | head -10" ] in
    exists bodies events,
      report_run E h (List.length tr) commands events bodies /\
      _get_system_info E st
      = (Ok (List.concat (map (fun cb => info_section (fst cb) (snd cb))
                              (combine commands bodies))),
         St (srv st) (rev events ++ tr)) /\
      List.length bodies = 5 /\
      dispatched (rev events) = commands.
Proof.
  intros E h sftp cfg tr st commands. subst st commands.
  destruct (system_info_loop_sections E h sftp cfg diagnostic_commands [] tr)
    as (bodies & events & Hrep & Hrun & Hlen & Hd).
  exists bodies, events.
  split; [exact Hrep|]. split; [|split; [exact Hlen | exact Hd]].
  unfold _get_system_info. unfold bind at 1.
  cbn [get_ssh_client srv ssh_client truthy_obj negb fst snd].
  unfold try_except. rewrite Hrun. reflexivity.
Qed.

(** A pass determines its calls and its body: the world answers each call
    once. *)
Lemma section_run_deterministic E h t command evs1 body1 evs2 body2 :
  section_run E h t command evs1 body1 ->
  section_run E h t command evs2 body2 ->
  evs1 = evs2 /\ body1 = body2.
Proof.
  intros H1 H2. destruct H1, H2; split; congruence.
Qed.

Lemma report_run_deterministic E h commands :
  forall t evs1 bodies1 evs2 bodies2,
    report_run E h t commands evs1 bodies1 ->
    report_run E h t commands evs2 bodies2 ->
    evs1 = evs2 /\ bodies1 = bodies2.
Proof.
  induction commands as [|command rest IH]; intros t evs1 bodies1 evs2 bodies2 H1 H2.
  - inversion H1; inversion H2; subst. split; reflexivity.
  - inversion H1 as [|t1 c1 r1 e1 e1' b1 bs1 Hs1 Hr1]; subst.
    inversion H2 as [|t2 c2 r2 e2 e2' b2 bs2 Hs2 Hr2]; subst.
    destruct (section_run_deterministic Hs1 Hs2) as [-> ->].
    destruct (IH _ _ _ _ _ Hr1 Hr2) as [-> ->]. split; reflexivity.
Qed.

(** Where [lsb_release -a] cannot be started, its section holds the error
    line and the other four hold the output read. *)
Example system_info_without_lsb_release :
  fst (_get_system_info no_lsb_release connected_state)
  = Ok (lit "=== uname -a ===" ++ NL ++ lit "ok" ++ NL ++ NL ++ NL
        ++ lit "=== lsb_release -a ===" ++ NL
        ++ lit "Command execution error: SSH session not active" ++ NL ++ NL
        ++ lit "=== df -h ===" ++ NL ++ lit "ok" ++ NL ++ NL ++ NL
        ++ lit "=== free -h ===" ++ NL ++ lit "ok" ++ NL ++ NL ++ NL
        ++ lit "=== ps aux | head -10 ===" ++ NL ++ lit "ok" ++ NL ++ NL ++ NL).
Proof. vm_compute. reflexivity. Qed.

(** ** The text shown for a stream *)

Lemma drop_while_split p (l : str) :
  exists pre, l = pre ++ drop_while p l /\ forallb p pre = true.
Proof.
  induction l as [|c l IH]; [exists []; split; reflexivity|].
  cbn [drop_while]. destruct (p c) eqn:Hc.
  - destruct IH as [pre [H1 H2]]. exists (c :: pre). split.
    + cbn [app]. rewrite <- H1. reflexivity.
    + cbn [forallb]. rewrite Hc, H2. reflexivity.
  - exists []. split; reflexivity.
Qed.

Lemma forallb_rev {A} (p : A -> bool) l : forallb p (rev l) = forallb p l.
Proof.
  induction l as [|a l IH]; [reflexivity|].
  cbn [rev forallb]. rewrite forallb_app, IH. cbn [forallb].
  rewrite andb_true_r. apply andb_comm.
Qed.

(** X3. The STDOUT and STDERR blocks of the text [_execute_command] returns
    hold the stream with its trailing white space cut off and nothing else
    changed: the stream is the text shown followed by white space only, and
    the text shown is empty or ends with a character that is not white
    space.  A stream of white space only is shown as the empty string. *)
Theorem shown_cuts_trailing_whitespace :
  forall data,
    (exists ws, data = shown data ++ ws /\ forallb isspace ws = true) /\
    (forall c rest, rev (shown data) = c :: rest -> isspace c = false) /\
    (forallb isspace data = true -> shown data = []).
Proof.
  intros data. rewrite shown_rstrip. unfold rstrip, rstrip_by.
  split; [|split].
  - destruct (drop_while_split isspace (rev data)) as [pre [H1 H2]].
    exists (rev pre). split.
    + rewrite <- rev_app_distr, <- H1, rev_involutive. reflexivity.
    + rewrite forallb_rev. exact H2.
  - intros c rest. rewrite rev_involutive. apply drop_while_head.
  - intros H. rewrite drop_while_all; [reflexivity|].
    rewrite forallb_rev. exact H.
Qed.

Lemma shown_cuts_trailing_whitespace_witness :
  isspace 107 = false /\ shown (NL ++ lit "  ") = [].
Proof.
  split.
  - apply (proj1 (proj2 (shown_cuts_trailing_whitespace (lit "ok" ++ NL)))
                 107%N [111%N]).
    vm_compute. reflexivity.
  - apply (proj2 (proj2 (shown_cuts_trailing_whitespace (NL ++ lit "  ")))).
    vm_compute. reflexivity.
Defined.

(** ** [get_env_ssh_config] *)

(** X4. [get_env_ssh_config] raises exactly when [int] rejects the text of
    the port variable (or of its default [22]).  Trouble with the key file
    never makes it raise: the configuration it returns carries key material
    exactly when the path variable is set and not empty, the path exists and
    the file could be read, and then it is the text of the file; in every
    other case [private_key] is [None].  It changes no attribute. *)
Theorem get_env_tolerates_key_file_trouble :
  forall E st,
    let t := List.length (trace st) in
    let run := get_env_ssh_config E st in
    (forall e,
       fst run = Raise e <->
       py_int E (getenv_default E t "UBUNTU_SSH_PORT" "22") = Raise e) /\
    (forall d text,
       fst run = Ok d ->
       (private_key d = Some text <->
        exists path,
          os_getenv E t (lit "UBUNTU_SSH_PRIVATE_KEY_PATH") = Some path /\
          path <> [] /\
          os_path_exists E t path = true /\
          read_text E t path = Ok text)) /\
    srv (snd run) = srv st.
Proof.
  intros E st t run. subst run t.
  unfold get_env_ssh_config, extern. cbn [fst snd srv].
  split; [|split; [|reflexivity]].
  - intros e. destruct (py_int E _); split; intros H; congruence.
  - intros d text. destruct (py_int E _) as [p|x]; [|discriminate].
    intros H. injection H as <-. cbn [private_key].
    destruct (os_getenv E (List.length (trace st))
                (lit "UBUNTU_SSH_PRIVATE_KEY_PATH")) as [path|].
    + destruct path as [|c path'].
      * cbn [nonempty andb]. split; [discriminate|].
        intros (p0 & Hp & Hne & _). injection Hp as <-. congruence.
      * cbn [nonempty andb].
        destruct (os_path_exists E (List.length (trace st)) (c :: path')) eqn:Hex.
        -- destruct (read_text E (List.length (trace st)) (c :: path')) as [body|x] eqn:Hrd.
           ++ split.
              ** intros H. injection H as <-. exists (c :: path').
                 repeat split; [discriminate | assumption | assumption].
              ** intros (p0 & Hp & _ & _ & Hr). injection Hp as <-.
                 rewrite Hrd in Hr. congruence.
           ++ split; [discriminate|].
              intros (p0 & Hp & _ & _ & Hr). injection Hp as <-.
              rewrite Hrd in Hr. discriminate.
        -- split; [discriminate|].
           intros (p0 & Hp & _ & He & _). injection Hp as <-.
           rewrite Hex in He. discriminate.
    + split; [discriminate|]. intros (p0 & Hp & _). discriminate.
Qed.


Lemma get_env_tolerates_key_file_trouble_witness :
  fst (get_env_ssh_config bad_port init_state)
    = Raise (Exc ValueError (lit "invalid literal for int() with base 10: 'ssh'")) /\
  (private_key {| host := lit "/id"; port := 22; username := lit "/id";
                  password := Some (lit "/id"); private_key := None;
                  private_key_passphrase := Some (lit "/id") |} = Some (lit "KEY") <->
   exists path,
     os_getenv unreadable_key (List.length (trace init_state))
               (lit "UBUNTU_SSH_PRIVATE_KEY_PATH") = Some path /\
     path <> [] /\
     os_path_exists unreadable_key (List.length (trace init_state)) path = true /\
     read_text unreadable_key (List.length (trace init_state)) path = Ok (lit "KEY")).
Proof.
  split.
  - apply (proj1 (get_env_tolerates_key_file_trouble bad_port init_state)).
    vm_compute. reflexivity.
  - apply (proj1 (proj2 (get_env_tolerates_key_file_trouble unreadable_key init_state))).
    vm_compute. reflexivity.
Defined.


(** ** [_disconnect_ssh] when a close raises *)

(** X5. When closing the file-transfer channel raises, [_disconnect_ssh]
    stops there: the close of the transport is not attempted and the server
    keeps both handles and the recorded config.  When the channel is closed
    (or none is held) and closing the transport raises, the channel handle
    is already cleared, and the server keeps the transport and the config.
    In both cases the caller gets [Disconnect failed: ] with the message of
    the error. *)
Theorem disconnect_failure_keeps_handles :
  forall E ssh sftp cfg tr x,
    let st := St {| ssh_client := ssh; sftp_client := sftp; config := cfg |} tr in
    let failed := Raise (Exc PyException (lit "Disconnect failed: " ++ exc_msg x)) in
    (forall s,
       sftp = Some s ->
       sftp_close E (List.length tr) s = Raise x ->
       _disconnect_ssh E st
         = (failed, St (srv st) (Ev (SftpClose s) (Some x) :: tr))) /\
    (forall h s,
       ssh = Some h -> sftp = Some s ->
       sftp_close E (List.length tr) s = Ok tt ->
       client_close E (S (List.length tr)) h = Raise x ->
       _disconnect_ssh E st
         = (failed,
            St {| ssh_client := Some h; sftp_client := None; config := cfg |}
               (Ev (ClientClose h) (Some x) :: Ev (SftpClose s) None :: tr))) /\
    (forall h,
       ssh = Some h -> sftp = None ->
       client_close E (List.length tr) h = Raise x ->
       _disconnect_ssh E st
         = (failed, St (srv st) (Ev (ClientClose h) (Some x) :: tr))).
Proof.
  intros E ssh sftp cfg tr x st failed. subst st failed.
  unfold _disconnect_ssh, disconnect_body. unfold_m.
  split; [|split].
  - intros s -> H. cbn [srv trace sftp_client truthy_obj]. rewrite H. reflexivity.
  - intros h s -> -> H1 H2.
    cbn [srv trace sftp_client ssh_client truthy_obj List.length].
    rewrite H1. cbn [srv trace sftp_client ssh_client truthy_obj List.length].
    rewrite H2. reflexivity.
  - intros h -> -> H.
    cbn [srv trace sftp_client ssh_client truthy_obj List.length].
    rewrite H. reflexivity.
Qed.

Lemma disconnect_failure_keeps_handles_witness :
  _disconnect_ssh broken_sftp connected_state
    = (Raise (Exc PyException (lit "Disconnect failed: " ++ exc_msg boom)),
       St (srv connected_state) (Ev (SftpClose 4) (Some boom) :: connected_trace)) /\
  _disconnect_ssh broken_transport connected_state
    = (Raise (Exc PyException (lit "Disconnect failed: " ++ exc_msg boom)),
       St {| ssh_client := Some 1; sftp_client := None; config := Some some_config |}
          (Ev (ClientClose 1) (Some boom) :: Ev (SftpClose 4) None :: connected_trace)) /\
  _disconnect_ssh broken_transport
      (St {| ssh_client := Some 1; sftp_client := None; config := Some some_config |}
          connected_trace)
    = (Raise (Exc PyException (lit "Disconnect failed: " ++ exc_msg boom)),
       St (srv (St {| ssh_client := Some 1; sftp_client := None;
                      config := Some some_config |} connected_trace))
          (Ev (ClientClose 1) (Some boom) :: connected_trace)).
Proof.
  split; [|split].
  - apply (proj1 (@disconnect_failure_keeps_handles broken_sftp (Some 1) (Some 4)
                    (Some some_config) connected_trace boom) 4);
      vm_compute; reflexivity.
  - apply (proj1 (proj2 (@disconnect_failure_keeps_handles broken_transport (Some 1)
                           (Some 4) (Some some_config) connected_trace boom)) 1 4);
      vm_compute; reflexivity.
  - apply (proj2 (proj2 (@disconnect_failure_keeps_handles broken_transport (Some 1)
                           None (Some some_config) connected_trace boom)) 1);
      vm_compute; reflexivity.
Defined.

(** ** [_download_file] *)

(** Closes the cases of a run whose calls have all been decided. *)
Ltac download_cases :=
  repeat split; intros;
  first
    [ congruence
    | eexists; reflexivity
    | match goal with
      | H : Raise _ = Raise _ |- _ =>
          injection H as <-; eexists; eexists; eexists; split; reflexivity
      end
    | match goal with
      | H1 : ?a = Raise ?y, H2 : ?a = Raise ?x |- _ =>
          rewrite H1 in H2; injection H2 as <-; reflexivity
      end ].

(** X6. On a held channel [_download_file] prepares the local directory
    before the transfer: with no directory part in the local path it checks
    and creates nothing; with one that exists it creates nothing; with one
    that does not exist it calls [makedirs] on it first, and a [makedirs]
    that raises ends the download without a transfer.  It returns
    [Successfully downloaded {remote_path} to {local_path}] when the
    transfer returns, and whenever it raises the caller gets
    [File download failed: ] with the message of the error of its last
    call. *)
Theorem download_prepares_local_directory :
  forall E remote_path local_path ssh s cfg tr,
    let st := St {| ssh_client := ssh; sftp_client := Some s; config := cfg |} tr in
    let t := List.length tr in
    let dir := dirname local_path in
    let run := _download_file E remote_path local_path st in
    (dir = [] ->
     exists r, trace (snd run) = [Ev (SftpGet s remote_path local_path) r] ++ tr) /\
    (dir <> [] -> os_path_exists E t dir = true ->
     exists r,
       trace (snd run)
         = [Ev (SftpGet s remote_path local_path) r; Ev (PathExists dir) None] ++ tr) /\
    (dir <> [] -> os_path_exists E t dir = false ->
     os_makedirs E (S t) dir = Ok tt ->
     exists r,
       trace (snd run)
         = [ Ev (SftpGet s remote_path local_path) r; Ev (Makedirs dir) None;
             Ev (PathExists dir) None ] ++ tr) /\
    (forall x,
       dir <> [] -> os_path_exists E t dir = false ->
       os_makedirs E (S t) dir = Raise x ->
       run = (Raise (Exc PyException (lit "File download failed: " ++ exc_msg x)),
              St (srv st) ([Ev (Makedirs dir) (Some x); Ev (PathExists dir) None] ++ tr))) /\
    (forall text, fst run = Ok text ->
       text = lit "Successfully downloaded " ++ remote_path ++ lit " to " ++ local_path) /\
    (forall e, fst run = Raise e ->
       exists c cause older,
         trace (snd run) = Ev c (Some cause) :: older /\
         e = Exc PyException (lit "File download failed: " ++ exc_msg cause)).
Proof.
  intros E remote_path local_path ssh s cfg tr st t dir run.
  subst run st t dir. unfold _download_file. unfold_m.
  destruct (dirname local_path) as [|c d] eqn:Hdir; simpl.
  - repeat (run_step; simpl); download_cases.
  - destruct (os_path_exists E (List.length tr) (c :: d)) eqn:Hex; simpl.
    + repeat (run_step; simpl); download_cases.
    + repeat (run_step; simpl); download_cases.
Qed.

Lemma download_prepares_local_directory_witness :
  (exists r,
     trace (snd (_download_file calm (lit "/srv/a.txt") (lit "a.txt") connected_state))
       = [Ev (SftpGet 4 (lit "/srv/a.txt") (lit "a.txt")) r] ++ connected_trace) /\
  (exists r,
     trace (snd (_download_file empty_disk (lit "/srv/a.txt") (lit "out/a.txt")
                   connected_state))
       = [ Ev (SftpGet 4 (lit "/srv/a.txt") (lit "out/a.txt")) r;
           Ev (Makedirs (dirname (lit "out/a.txt"))) None;
           Ev (PathExists (dirname (lit "out/a.txt"))) None ] ++ connected_trace).
Proof.
  split.
  - apply (proj1 (@download_prepares_local_directory calm (lit "/srv/a.txt")
                    (lit "a.txt") (Some 1) 4 (Some some_config) connected_trace)).
    vm_compute. reflexivity.
  - apply (proj1 (proj2 (proj2 (@download_prepares_local_directory empty_disk
                    (lit "/srv/a.txt") (lit "out/a.txt") (Some 1) 4
                    (Some some_config) connected_trace)))).
    + vm_compute. discriminate.
    + vm_compute. reflexivity.
    + vm_compute. reflexivity.
Defined.


(** ** [_connect_ssh]: password authentication *)

(** X7. A connect from the Disconnected state whose merged configuration is
    valid and carries no key material (none, or an empty text) never tries
    to read a key, and authenticates with the merged password.  When the
    transport connects and the file-transfer channel opens, the calls made
    are, in order: read the environment, create the client, set the host key
    policy, [connect] with the merged host, port, username and password and
    a timeout of 30, [open_sftp]; the server then holds the new client, the
    new channel and the merged configuration, and the text returned is
    [Successfully connected to {username}@{host}:{port}]. *)
Theorem password_connect :
  forall E a b c d e f cfg tr env_config,
    let st := St {| ssh_client := None; sftp_client := None; config := cfg |} tr in
    let m := merge_config a b c d e f env_config in
    let t := List.length tr in
    let run := _connect_ssh E a b c d e f st in
    fst (get_env_ssh_config E st) = Ok env_config ->
    host m <> [] ->
    username m <> [] ->
    truthy_str (private_key m) = false ->
    truthy_str (password m) = true ->
    (exists new,
       trace (snd run) = new ++ tr /\
       key_attempts new = [] /\
       forall auth, In auth (connect_auths new) -> auth = AuthPassword (password m)) /\
    (client_connect E (3 + t) (S t) (host m) (port m) (username m)
                    (AuthPassword (password m)) = Ok tt ->
     open_sftp E (4 + t) (S t) = Ok tt ->
     run = (Ok (lit "Successfully connected to " ++ username m ++ lit "@"
                ++ host m ++ lit ":" ++ str_of_Z (port m)),
            St {| ssh_client := Some (S t); sftp_client := Some (4 + t);
                  config := Some m |}
               ([ Ev (OpenSftp (S t) (4 + t)) None;
                  Ev (ClientConnect (S t) (host m) (port m) (username m)
                                    (AuthPassword (password m)) 30) None;
                  Ev (SetMissingHostKeyPolicy (S t)) None;
                  Ev (NewSSHClient (S t)) None;
                  Ev GetEnvConfig None ] ++ tr))).
Proof.
  intros E a b c d e f cfg tr env_config st m t run Hg Hh Hu Hk Hp.
  subst t. remember run as r eqn:Hrun. subst run. revert Hrun. subst st.
  unfold _connect_ssh, connect_body, establish.
  unfold try_except at 1. unfold bind at 1. cbn [get_ssh_client srv ssh_client].
  unfold bind at 1. cbn [truthy_obj ret].
  unfold bind at 1. rewrite (get_env_ok _ _ Hg). cbn [srv trace].
  fold m. clearbody m. unfold validate_config, success_msg.
  assert (Hh' : nonempty (host m) = true)
    by (destruct (host m); [congruence | reflexivity]).
  assert (Hu' : nonempty (username m) = true)
    by (destruct (username m); [congruence | reflexivity]).
  rewrite Hh', Hu', Hk, Hp. cbn [nonempty negb andb].
  unfold do_connect, connect_cleanup.
  unfold_m. cbn [srv trace ssh_client sftp_client config fst snd List.length truthy_obj].
  repeat (run_step; cbn [srv trace ssh_client sftp_client config fst snd List.length truthy_obj]).
  all: intros ->; cbn [fst snd trace Nat.add].
  all: split; [eexists; split; [find_new|]; split; [reflexivity|]
              | intros H1 H2; first [congruence | reflexivity]].
  all: cbn; intros auth [<-|[]]; reflexivity.
Qed.

Lemma password_connect_witness :
  let env0 := {| host := []; port := 22; username := []; password := None;
                 private_key := None; private_key_passphrase := None |} in
  let m := merge_config (Some (lit "10.0.0.5")) None (Some (lit "ubuntu"))
                        (Some (lit "secret")) None None env0 in
  _connect_ssh calm (Some (lit "10.0.0.5")) None (Some (lit "ubuntu"))
               (Some (lit "secret")) None None
               (St {| ssh_client := None; sftp_client := None; config := None |} [])
  = (Ok (lit "Successfully connected to " ++ username m ++ lit "@"
         ++ host m ++ lit ":" ++ str_of_Z (port m)),
     St {| ssh_client := Some 1; sftp_client := Some (4 + 0); config := Some m |}
        ([ Ev (OpenSftp 1 (4 + 0)) None;
           Ev (ClientConnect 1 (host m) (port m) (username m)
                             (AuthPassword (password m)) 30) None;
           Ev (SetMissingHostKeyPolicy 1) None;
           Ev (NewSSHClient 1) None;
           Ev GetEnvConfig None ] ++ [])).
Proof.
  intros env0 m.
  pose proof (@password_connect calm (Some (lit "10.0.0.5")) None (Some (lit "ubuntu"))
                (Some (lit "secret")) None None None [] env0) as H.
  cbv zeta in H. fold env0 in H. fold m in H.
  apply H.
  - vm_compute. reflexivity.
  - vm_compute. discriminate.
  - vm_compute. discriminate.
  - vm_compute. reflexivity.
  - vm_compute. reflexivity.
  - vm_compute. reflexivity.
  - vm_compute. reflexivity.
Defined.


(** ** Reachable states *)

Lemma disconnect_channel_on_transport E st :
  channel_on_transport (srv st) ->
  channel_on_transport (srv (snd (_disconnect_ssh E st))).
Proof.
  destruct st as [[ssh sftp cfg] tr]. unfold channel_on_transport.
  unfold _disconnect_ssh, disconnect_body. unfold_m.
  destruct ssh, sftp; simpl; repeat (run_step; simpl); intros H; try exact H;
    try congruence.
Qed.

Lemma run_op_channel_on_transport E o st :
  session_inv st ->
  channel_on_transport (srv st) ->
  channel_on_transport (srv (snd (run_op E o st))).
Proof.
  intros Hi Hc. destruct o; cbn [run_op].
  - pose proof (@connect_spec E host_ port_ username_ password_ private_key_
                  passphrase_ st Hi) as H.
    unfold wp in H. unfold channel_on_transport.
    destruct (fst _).
    + destruct H as [_ [[h Hh] _]]. rewrite Hh. discriminate.
    + destruct H as [_ [_ Hs]]. rewrite Hs. congruence.
  - apply disconnect_channel_on_transport. exact Hc.
  - rewrite (proj1 (borrows_execute_command E command cwd st)). exact Hc.
  - rewrite (proj1 (borrows_upload_file E local_path remote_path st)). exact Hc.
  - rewrite (proj1 (borrows_download_file E remote_path local_path st)). exact Hc.
  - rewrite (proj1 (borrows_get_system_info E st)). exact Hc.
Qed.

(** X8. After any sequence of the six operations from the initial state,
    whatever the outside world answered, the server never holds a
    file-transfer channel without a transport: whenever the guard of
    [_upload_file] and [_download_file] lets a call through, so does the
    guard of [_execute_command] and [_get_system_info]. *)
Theorem channel_never_without_transport :
  forall E os,
    let s := srv (run_ops E os init_state) in
    sftp_client s <> None -> ssh_client s <> None.
Proof.
  intros E os.
  assert (H : forall st, session_inv st -> channel_on_transport (srv st) ->
                         channel_on_transport (srv (run_ops E os st))).
  { induction os as [|o rest IH]; intros st Hi Hc; [exact Hc|].
    cbn [run_ops]. apply IH.
    - apply run_op_session_inv. exact Hi.
    - apply run_op_channel_on_transport; assumption. }
  apply H; [exact init_session_inv | intros Hn; exact Hn].
Qed.

Lemma channel_never_without_transport_witness :
  ssh_client
    (srv (run_ops calm
            [ Connect (Some (lit "10.0.0.5")) None (Some (lit "ubuntu"))
                      (Some (lit "secret")) None None;
              Execute (lit "ls") None ]
            init_state)) <> None.
Proof.
  apply (channel_never_without_transport calm
           [ Connect (Some (lit "10.0.0.5")) None (Some (lit "ubuntu"))
                     (Some (lit "secret")) None None;
             Execute (lit "ls") None ]).
  vm_compute. discriminate.
Defined.

(** ** How the operations compose *)

(** When [_connect_ssh] returns, from whatever state it was called in, the
    [try] block ran to its end. *)
Lemma connect_returns_connected E a b c d e f st text st' :
  _connect_ssh E a b c d e f st = (Ok text, st') ->
  Connected (srv st').
Proof.
  unfold _connect_ssh, try_except.
  destruct (connect_body E a b c d e f st) as [[m|x] st1] eqn:Hb.
  - intros H. injection H as _ <-. revert Hb.
    unfold connect_body. unfold bind at 1. cbn [get_ssh_client].
    unfold bind at 1.
    destruct ((if truthy_obj (ssh_client (srv st))
               then _disconnect_ssh E;; ret tt else ret tt) st) as [[u|x] st0];
      [|discriminate].
    intros Hest. destruct (establish_client _ _ _ _ _ _ _ _ Hest) as [Hc [ch Hs]].
    split; [eexists; exact Hc | exists ch; exact Hs].
  - destruct (cleanup_run E x st1) as [closes [Hrun _]]. rewrite Hrun. discriminate.
Qed.

(** X9. After a [_connect_ssh] that raised, from whatever state it was
    called in, a [_disconnect_ssh] makes no call into the outside world,
    returns [Successfully disconnected from SSH] and leaves the server as
    [__init__] does. *)
Theorem disconnect_after_failed_connect :
  forall E E' a b c d e f st x,
    let st1 := snd (_connect_ssh E a b c d e f st) in
    fst (_connect_ssh E a b c d e f st) = Raise x ->
    _disconnect_ssh E' st1
      = (Ok (lit "Successfully disconnected from SSH"), St init_server (trace st1)).
Proof.
  intros E E' a b c d e f st x st1. subst st1.
  unfold _connect_ssh, try_except.
  destruct (connect_body E a b c d e f st) as [[m|cause] st0]; [discriminate|].
  destruct (cleanup_run E cause st0) as [closes [Hrun _]]. rewrite Hrun.
  intros _. reflexivity.
Qed.

Lemma disconnect_after_failed_connect_witness :
  _disconnect_ssh calm
    (snd (_connect_ssh rejecting (Some (lit "10.0.0.5")) None (Some (lit "ubuntu"))
            (Some (lit "secret")) None None init_state))
  = (Ok (lit "Successfully disconnected from SSH"),
     St init_server
        (trace (snd (_connect_ssh rejecting (Some (lit "10.0.0.5")) None
                       (Some (lit "ubuntu")) (Some (lit "secret")) None None
                       init_state)))).
Proof.
  apply (@disconnect_after_failed_connect rejecting calm (Some (lit "10.0.0.5")) None
           (Some (lit "ubuntu")) (Some (lit "secret")) None None init_state
           (Exc PyException (lit "SSH connection failed: Authentication failed."))).
  vm_compute. reflexivity.
Defined.

(** X10. After a [_connect_ssh] that returned, from whatever state it was
    called in, the server holds a transport and a file-transfer channel, and
    a following [_execute_command] sends its command line on that transport
    as its first call: the guards of the borrowing operations let it
    through. *)
Theorem execute_after_connect :
  forall E E' a b c d e f st text command cwd,
    let st1 := snd (_connect_ssh E a b c d e f st) in
    fst (_connect_ssh E a b c d e f st) = Ok text ->
    exists h s,
      ssh_client (srv st1) = Some h /\
      sftp_client (srv st1) = Some s /\
      exists later r,
        trace (snd (_execute_command E' command cwd st1))
          = later ++ Ev (ExecCommand h (actual_command command cwd)) r :: trace st1.
Proof.
  intros E E' a b c d e f st text command cwd st1 Ht.
  assert (Hc : Connected (srv st1)).
  { apply (@connect_returns_connected E a b c d e f st text st1).
    subst st1. rewrite <- Ht. apply surjective_pairing. }
  destruct Hc as [[h Hh] [s Hs]]. exists h, s.
  split; [exact Hh|]. split; [exact Hs|].
  destruct st1 as [[ssh sftp cfg] tr]. cbn [srv ssh_client sftp_client trace] in *.
  subst ssh.
  destruct (execute_dispatch E' command cwd h sftp cfg tr) as (later & r & H & _).
  exists later, r. exact H.
Qed.

Lemma execute_after_connect_witness :
  exists h s,
    ssh_client
      (srv (snd (_connect_ssh calm (Some (lit "10.0.0.5")) None (Some (lit "ubuntu"))
                   (Some (lit "secret")) None None init_state))) = Some h /\
    sftp_client
      (srv (snd (_connect_ssh calm (Some (lit "10.0.0.5")) None (Some (lit "ubuntu"))
                   (Some (lit "secret")) None None init_state))) = Some s /\
    exists later r,
      trace (snd (_execute_command calm (lit "ls") None
                    (snd (_connect_ssh calm (Some (lit "10.0.0.5")) None
                            (Some (lit "ubuntu")) (Some (lit "secret")) None None
                            init_state))))
        = later ++ Ev (ExecCommand h (actual_command (lit "ls") None)) r
            :: trace (snd (_connect_ssh calm (Some (lit "10.0.0.5")) None
                             (Some (lit "ubuntu")) (Some (lit "secret")) None None
                             init_state)).
Proof.
  apply (@execute_after_connect calm calm (Some (lit "10.0.0.5")) None
           (Some (lit "ubuntu")) (Some (lit "secret")) None None init_state
           (lit "Successfully connected to ubuntu@10.0.0.5:22") (lit "ls") None).
  vm_compute. reflexivity.
Defined.


(* ================================================================= *)
(** * The configuration validator *)

Lemma check_required_missing E t var description r :
  exists extra,
    missing_vars (check_required E t var description r) = missing_vars r ++ extra /\
    (extra = [] <-> truthy_str (os_getenv E t (lit var)) = true).
Proof.
  unfold check_required.
  destruct (truthy_str (os_getenv E t (lit var))); cbn [negb].
  - exists []. split; [symmetry; apply app_nil_r | split; reflexivity].
  - eexists [_]. split; [reflexivity | split; discriminate].
Qed.

Lemma check_authentication_missing E t r :
  exists extra,
    missing_vars (check_authentication E t r) = missing_vars r ++ extra /\
    (extra = [] <->
     truthy_str (os_getenv E t (lit "UBUNTU_SSH_PASSWORD")) = true \/
     exists path,
       os_getenv E t (lit "UBUNTU_SSH_PRIVATE_KEY_PATH") = Some path /\
       path <> [] /\ os_path_exists E t path = true).
Proof.
  unfold check_authentication.
  destruct (truthy_str (os_getenv E t (lit "UBUNTU_SSH_PASSWORD"))) eqn:Hpw;
    cbn [negb andb].
  - exists []. split; [symmetry; apply app_nil_r|].
    split; [intros _; left; reflexivity | reflexivity].
  - destruct (os_getenv E t (lit "UBUNTU_SSH_PRIVATE_KEY_PATH")) as [[|kc kp]|]
      eqn:Hkey; cbn [truthy_str nonempty negb].
    + eexists [_]. split; [reflexivity|]. split; [discriminate|].
      intros [H|(p & Hp & Hne & _)]; [discriminate|]. injection Hp as <-. congruence.
    + destruct (os_path_exists E t (kc :: kp)) eqn:Hex.
      * exists []. split; [symmetry; apply app_nil_r|].
        split; [|reflexivity]. intros _. right. exists (kc :: kp).
        repeat split; [discriminate | exact Hex].
      * eexists [_]. split; [reflexivity|]. split; [discriminate|].
        intros [H|(p & Hp & _ & He)]; [discriminate|]. injection Hp as <-.
        rewrite Hex in He. discriminate.
    + eexists [_]. split; [reflexivity|]. split; [discriminate|].
      intros [H|(p & Hp & _)]; discriminate.
Qed.

Lemma check_port_missing E t r :
  match fst (check_port E t r) with
  | Ok r' =>
      exists extra,
        missing_vars r' = missing_vars r ++ extra /\
        (extra = [] <->
         exists n,
           py_int E (getenv_default E t "UBUNTU_SSH_PORT" "22") = Ok n /\
           (1 <= n <= 65535)%Z)
  | Raise e =>
      py_int E (getenv_default E t "UBUNTU_SSH_PORT" "22") = Raise e /\
      is_ValueError e = false
  end.
Proof.
  unfold check_port.
  destruct (py_int E (getenv_default E t "UBUNTU_SSH_PORT" "22")) as [n|x].
  - destruct (Z.leb_spec 1 n); destruct (Z.leb_spec n 65535); cbn [andb fst].
    + exists []. split; [symmetry; apply app_nil_r|]. split; [|reflexivity].
      intros _. exists n. split; [reflexivity | lia].
    + eexists [_]. split; [reflexivity|]. split; [discriminate|].
      intros (n' & Hn & Hr). injection Hn as <-. lia.
    + eexists [_]. split; [reflexivity|]. split; [discriminate|].
      intros (n' & Hn & Hr). injection Hn as <-. lia.
    + eexists [_]. split; [reflexivity|]. split; [discriminate|].
      intros (n' & Hn & Hr). injection Hn as <-. lia.
  - destruct (is_ValueError x) eqn:Hv; cbn [fst].
    + eexists [_]. split; [reflexivity|]. split; [discriminate|].
      intros (n' & Hn & _). discriminate.
    + split; [reflexivity | exact Hv].
Qed.

(** The value [validate_ssh_config] returns, by the four checks. *)
Lemma validate_accepts E t :
  fst (validate_ssh_config E t) = Ok true <->
  truthy_str (os_getenv E t (lit "UBUNTU_SSH_HOST")) = true /\
  truthy_str (os_getenv E t (lit "UBUNTU_SSH_USERNAME")) = true /\
  (truthy_str (os_getenv E t (lit "UBUNTU_SSH_PASSWORD")) = true \/
   exists path,
     os_getenv E t (lit "UBUNTU_SSH_PRIVATE_KEY_PATH") = Some path /\
     path <> [] /\ os_path_exists E t path = true) /\
  exists n,
    py_int E (getenv_default E t "UBUNTU_SSH_PORT" "22") = Ok n /\
    (1 <= n <= 65535)%Z.
Proof.
  unfold validate_ssh_config.
  set (r0 := say _ _).
  destruct (check_required_missing E t "UBUNTU_SSH_HOST" "SSH Host" r0)
    as (e1 & M1 & H1).
  set (r1 := check_required E t "UBUNTU_SSH_HOST" "SSH Host" r0) in *.
  destruct (check_required_missing E t "UBUNTU_SSH_USERNAME" "SSH Username" r1)
    as (e2 & M2 & H2).
  set (r2 := check_required E t "UBUNTU_SSH_USERNAME" "SSH Username" r1) in *.
  destruct (check_authentication_missing E t r2) as (e3 & M3 & H3).
  set (r3 := check_authentication E t r2) in *.
  pose proof (check_port_missing E t r3) as H4.
  destruct (check_port E t r3) as [[r4|x] r]; cbn [fst] in *.
  - destruct H4 as (e4 & M4 & H4).
    rewrite M4, M3, M2, M1. cbn [r0 say missing_vars app].
    rewrite <- H1, <- H2, <- H3, <- H4.
    assert (Hlen : forall l : list str,
               Nat.eqb (List.length l) 0 = true <-> l = [])
      by (intros [|? ?]; cbn; split; congruence).
    split.
    + intros H. injection H as H. apply Hlen in H.
      apply app_eq_nil in H as [H E4]. apply app_eq_nil in H as [H E3].
      apply app_eq_nil in H as [E1 E2]. auto.
    + intros (-> & -> & -> & ->). reflexivity.
  - destruct H4 as [H4 _]. split; [discriminate|].
    intros (_ & _ & _ & n & Hn & _). rewrite H4 in Hn. discriminate.
Qed.

(** X11. [validate_ssh_config] returns [True] exactly when the host and the
    username variables are set and not empty, a password is set and not
    empty or else the key path is set, not empty and exists, and the text
    of the port variable (or its default [22]) is read by [int] as a number
    between 1 and 65535.  It raises only when [int] raises something other
    than a [ValueError]. *)
Theorem validator_accepts_exactly :
  forall E t,
    (fst (validate_ssh_config E t) = Ok true <->
     truthy_str (os_getenv E t (lit "UBUNTU_SSH_HOST")) = true /\
     truthy_str (os_getenv E t (lit "UBUNTU_SSH_USERNAME")) = true /\
     (truthy_str (os_getenv E t (lit "UBUNTU_SSH_PASSWORD")) = true \/
      exists path,
        os_getenv E t (lit "UBUNTU_SSH_PRIVATE_KEY_PATH") = Some path /\
        path <> [] /\ os_path_exists E t path = true) /\
     exists n,
       py_int E (getenv_default E t "UBUNTU_SSH_PORT" "22") = Ok n /\
       (1 <= n <= 65535)%Z) /\
    (forall e,
       fst (validate_ssh_config E t) = Raise e ->
       py_int E (getenv_default E t "UBUNTU_SSH_PORT" "22") = Raise e /\
       is_ValueError e = false).
Proof.
  intros E t. split; [apply validate_accepts|].
  intros e. unfold validate_ssh_config.
  match goal with
  | |- context [check_port E t ?r] =>
      pose proof (check_port_missing E t r) as H;
      destruct (check_port E t r) as [[r4|x] r']
  end; cbn [fst] in *.
  - discriminate.
  - intros He. injection He as <-. exact H.
Qed.

Lemma validator_accepts_exactly_witness :
  fst (validate_ssh_config key_only 0) = Ok true.
Proof.
  apply (proj2 (proj1 (validator_accepts_exactly key_only 0))).
  split; [vm_compute; reflexivity|]. split; [vm_compute; reflexivity|].
  split.
  - right. exists (lit "/id").
    split; [vm_compute; reflexivity|].
    split; [vm_compute; discriminate | vm_compute; reflexivity].
  - exists 22%Z. split; [vm_compute; reflexivity | lia].
Defined.

(** ** The validator and [_connect_ssh] *)

Lemma truthy_getenv_default E t name default :
  truthy_str (os_getenv E t (lit name)) = true ->
  nonempty (getenv_default E t name default) = true.
Proof.
  unfold getenv_default. destruct (os_getenv E t (lit name)); [|discriminate].
  exact (fun H => H).
Qed.

(** What [get_env_ssh_config] returns when [int] reads the port. *)
Lemma get_env_fields E st n :
  py_int E (getenv_default E (List.length (trace st)) "UBUNTU_SSH_PORT" "22") = Ok n ->
  exists d,
    fst (get_env_ssh_config E st) = Ok d /\
    host d = getenv_default E (List.length (trace st)) "UBUNTU_SSH_HOST" "" /\
    username d = getenv_default E (List.length (trace st)) "UBUNTU_SSH_USERNAME" "" /\
    password d = os_getenv E (List.length (trace st)) (lit "UBUNTU_SSH_PASSWORD") /\
    private_key d
    = match os_getenv E (List.length (trace st)) (lit "UBUNTU_SSH_PRIVATE_KEY_PATH") with
      | Some path =>
          if nonempty path && os_path_exists E (List.length (trace st)) path
          then match read_text E (List.length (trace st)) path with
               | Ok text => Some text
               | Raise _ => None
               end
          else None
      | None => None
      end.
Proof.
  intros Hn. unfold get_env_ssh_config, extern. cbn [fst]. rewrite Hn.
  eexists. split; [reflexivity|]. repeat split.
Qed.

(** A connect from the Disconnected state whose merged configuration passes
    the required-field checks creates a client. *)
Lemma connect_valid_creates_client E a b c d e f cfg tr env_config :
  let st := St {| ssh_client := None; sftp_client := None; config := cfg |} tr in
  let m := merge_config a b c d e f env_config in
  fst (get_env_ssh_config E st) = Ok env_config ->
  nonempty (host m) = true ->
  nonempty (username m) = true ->
  truthy_str (password m) || truthy_str (private_key m) = true ->
  exists new,
    trace (snd (_connect_ssh E a b c d e f st)) = new ++ tr /\
    In (Ev (NewSSHClient (S (List.length tr))) None) new.
Proof.
  intros st m Hg Hh Hu Hc.
  remember (_connect_ssh E a b c d e f st) as run eqn:Hrun.
  revert Hrun. subst st.
  unfold _connect_ssh, connect_body, establish.
  unfold try_except at 1. unfold bind at 1. cbn [get_ssh_client srv ssh_client].
  unfold bind at 1. cbn [truthy_obj ret].
  unfold bind at 1. rewrite (get_env_ok _ _ Hg). cbn [srv trace].
  fold m. clearbody m. unfold validate_config. rewrite Hh, Hu. cbn [negb].
  assert (Hc' : negb (truthy_str (password m)) && negb (truthy_str (private_key m))
                = false).
  { destruct (truthy_str (password m)), (truthy_str (private_key m));
      try reflexivity; discriminate. }
  rewrite Hc'. clear Hc Hc'.
  unfold do_connect, connect_cleanup, key_types. cbn [load_private_key].
  unfold_m.
  destruct (private_key m) as [ktext|] eqn:Hkey;
    cbn [truthy_str negb andb srv trace ssh_client sftp_client config fst snd
         List.length truthy_obj].
  all: repeat (first [run_step | if_step];
               cbn [srv trace ssh_client sftp_client config fst snd List.length
                    truthy_obj]).
  all: intros ->; cbn [fst snd trace].
  all: eexists; split; [find_new|]; cbn; tauto.
Qed.

(** X12. When [validate_ssh_config] returns [True] and a password is set, a
    [_connect_ssh] without arguments, made in the Disconnected state on the
    same environment, passes the required-field checks: it does not fail
    with a configuration error but goes on to create its client. *)
Theorem validated_password_config_connects :
  forall E cfg tr,
    let t := List.length tr in
    let st := St {| ssh_client := None; sftp_client := None; config := cfg |} tr in
    fst (validate_ssh_config E t) = Ok true ->
    truthy_str (os_getenv E t (lit "UBUNTU_SSH_PASSWORD")) = true ->
    exists new,
      trace (snd (_connect_ssh E None None None None None None st)) = new ++ tr /\
      In (Ev (NewSSHClient (S t)) None) new.
Proof.
  intros E cfg tr t st Hv Hp.
  apply validate_accepts in Hv. destruct Hv as (Hh & Hu & _ & n & Hn & _).
  destruct (get_env_fields E st Hn) as (d & Hg & Fh & Fu & Fp & _).
  apply (@connect_valid_creates_client E None None None None None None cfg tr d Hg).
  - unfold merge_config. cbn [host or_str]. rewrite Fh.
    apply truthy_getenv_default. exact Hh.
  - unfold merge_config. cbn [username or_str]. rewrite Fu.
    apply truthy_getenv_default. exact Hu.
  - unfold merge_config. cbn [password private_key or_opt truthy_str].
    rewrite Fp. cbn [trace st]. fold t. rewrite Hp. reflexivity.
Qed.

Lemma validated_password_config_connects_witness :
  exists new,
    trace (snd (_connect_ssh unreadable_key None None None None None None
                  (St {| ssh_client := None; sftp_client := None; config := None |} [])))
      = new ++ [] /\
    In (Ev (NewSSHClient (S (List.length (@nil Event)))) None) new.
Proof.
  apply (@validated_password_config_connects unreadable_key None []).
  - vm_compute. reflexivity.
  - vm_compute. reflexivity.
Defined.

(** X13. The validator does not open the key file.  When it returns [True]
    with no password set, and the key file it found cannot be read or is
    empty, a [_connect_ssh] without arguments, made in the Disconnected
    state on the same environment, fails with [SSH connection failed: Either
    password or private key is required. ...]. *)
Theorem validated_key_path_may_not_connect :
  forall E cfg tr path,
    let t := List.length tr in
    let st := St {| ssh_client := None; sftp_client := None; config := cfg |} tr in
    fst (validate_ssh_config E t) = Ok true ->
    truthy_str (os_getenv E t (lit "UBUNTU_SSH_PASSWORD")) = false ->
    os_getenv E t (lit "UBUNTU_SSH_PRIVATE_KEY_PATH") = Some path ->
    (forall text, read_text E t path = Ok text -> text = []) ->
    fst (_connect_ssh E None None None None None None st)
      = Raise (Exc PyException
                 (lit "SSH connection failed: "
                  ++ lit "Either password or private key is required. Set UBUNTU_SSH_PASSWORD or UBUNTU_SSH_PRIVATE_KEY_PATH environment variable.")).
Proof.
  intros E cfg tr path t st Hv Hp Hk Hr.
  apply validate_accepts in Hv. destruct Hv as (Hh & Hu & _ & n & Hn & _).
  destruct (get_env_fields E st Hn) as (d & Hg & Fh & Fu & Fp & Fk).
  cbn [trace st] in Fh, Fu, Fp, Fk. fold t in Fh, Fu, Fp, Fk.
  rewrite Hk in Fk.
  assert (Hkey : truthy_str (private_key d) = false).
  { rewrite Fk. destruct (nonempty path && os_path_exists E t path); [|reflexivity].
    destruct (read_text E t path) as [text|x] eqn:Hread; [|reflexivity].
    rewrite (Hr text eq_refl). reflexivity. }
  subst st.
  rewrite (@connect_invalid E None None None None None None cfg tr d
             CREDENTIAL_REQUIRED Hg); [reflexivity|].
  unfold validate_config, merge_config.
  cbn [host username password private_key or_str or_opt truthy_str].
  rewrite Fh, Fu, Fp, Hp, Hkey.
  rewrite (truthy_getenv_default _ _ _ _ Hh), (truthy_getenv_default _ _ _ _ Hu).
  reflexivity.
Qed.

Lemma validated_key_path_may_not_connect_witness :
  fst (_connect_ssh key_only None None None None None None
         (St {| ssh_client := None; sftp_client := None; config := None |} []))
  = Raise (Exc PyException
             (lit "SSH connection failed: "
              ++ lit "Either password or private key is required. Set UBUNTU_SSH_PASSWORD or UBUNTU_SSH_PRIVATE_KEY_PATH environment variable.")).
Proof.
  apply (@validated_key_path_may_not_connect key_only None [] (lit "/id")).
  - vm_compute. reflexivity.
  - vm_compute. reflexivity.
  - vm_compute. reflexivity.
  - intros text H. vm_compute in H. discriminate H.
Defined.
